(** * get_ndc_with_ingredient_name.py: the NDC retrieval pipeline

    A shallow embedding of the script [src/get_ndc_with_ingredient_name.py]
    and the properties of its three stages (name lookup, relation expansion,
    code fetching) and of the collection of output records.

    Modelling choices.
    - The values the script handles are the Python values that
      [response.json()] produces: [None], booleans, numbers, strings, lists
      and dicts.  Numbers are integers here; JSON numbers with a fraction
      are outside the model.
    - Python's dynamic checks are kept: [.get] on a value that is no dict
      raises [AttributeError], iterating or taking [len] of a value that has
      none raises [TypeError], using a list or dict as a dict key raises
      [TypeError], reading a name that was never bound raises [NameError].
    - The module-level names whose value is read after a later statement
      could have changed it ([results], [related_rxcui_dict], [ndc_list], the
      two counters, [temp_df]) form the record [globals]; the script is a
      computation over it that keeps the globals when an exception stops it.
    - The remote service is a function from the request to the reply.  The
      script builds a URL from the request; a service that is keyed by the
      request itself can tell apart at least the requests a URL can, so every
      service over URLs is one of these.  The service answers a repeated
      request the same way during one run.
    - A reply is a failed request, a blank body, a body that is no JSON or
      a body that decodes to a value.  A reply on which [requests.get] or
      [response.json()] raises an exception that line 16 does not catch
      (a [RecursionError] on a deeply nested body) is outside the model:
      what is proved of a reply is proved of these four kinds.
    - [print_status], [time.sleep] and the [tqdm] progress bar do not touch
      the globals and are left out; where a printed expression can raise
      (lines 57 and 126) its evaluation is kept. *)

From Stdlib Require Import List String ZArith Bool Lia Permutation.
Import ListNotations.
Local Open Scope string_scope.
Local Open Scope list_scope.
Set Warnings "-register-all".

(** ** Python values decoded from JSON *)

Inductive json : Type :=
| JNull
| JBool (b : bool)
| JNum (n : Z)
| JStr (s : string)
| JArr (l : list json)
| JObj (kv : list (string * json)).

Fixpoint json_eq_dec (a b : json) {struct a} : {a = b} + {a <> b}.
Proof.
  decide equality.
  - apply bool_dec.
  - apply Z.eq_dec.
  - apply string_dec.
  - apply (list_eq_dec json_eq_dec).
  - apply list_eq_dec. decide equality. apply string_dec.
Defined.

Inductive exn : Type := AttributeError | TypeError | NameError.

Inductive res (A : Type) : Type :=
| Ok (a : A)
| Raise (e : exn).
Arguments Ok {A} a.
Arguments Raise {A} e.

(** [bool(v)]: [None], [False], [0] and the empty string, list and dict
    are false. *)
Definition py_truthy (v : json) : bool :=
  match v with
  | JNull => false
  | JBool b => b
  | JNum n => negb (n =? 0)%Z
  | JStr s => negb (s =? "")
  | JArr l => match l with [] => false | _ :: _ => true end
  | JObj kv => match kv with [] => false | _ :: _ => true end
  end.

(** Lookup in the items of a dict.  The keys of a decoded dict are strings,
    each of them once. *)
Fixpoint lookup (k : string) (kv : list (string * json)) : option json :=
  match kv with
  | [] => None
  | (k', v) :: rest => if k' =? k then Some v else lookup k rest
  end.

(** [v.get(k, dflt)]: only a dict has the method. *)
Definition py_get (v : json) (k : string) (dflt : json) : res json :=
  match v with
  | JObj kv => match lookup k kv with Some x => Ok x | None => Ok dflt end
  | _ => Raise AttributeError
  end.

Fixpoint chars (s : string) : list json :=
  match s with
  | EmptyString => []
  | String c rest => JStr (String c EmptyString) :: chars rest
  end.

(** The elements a [for] loop over [v] visits: the items of a list, the
    characters of a string (one-character strings; a character is a byte
    here), the keys of a dict. *)
Definition py_iter (v : json) : res (list json) :=
  match v with
  | JArr l => Ok l
  | JStr s => Ok (chars s)
  | JObj kv => Ok (map (fun p => JStr (fst p)) kv)
  | _ => Raise TypeError
  end.

(** [len(v)]. *)
Definition py_len (v : json) : res nat :=
  match v with
  | JArr l => Ok (List.length l)
  | JStr s => Ok (String.length s)
  | JObj kv => Ok (List.length kv)
  | _ => Raise TypeError
  end.

(** [v == s] for a string literal [s]. *)
Definition py_eq_str (v : json) (s : string) : bool :=
  match v with
  | JStr t => t =? s
  | _ => false
  end.

(** [v in l] for a list of string literals. *)
Definition py_in_strs (v : json) (l : list string) : bool :=
  existsb (py_eq_str v) l.

(** Only lists and dicts cannot be hashed. *)
Definition hashable (v : json) : bool :=
  match v with
  | JArr _ | JObj _ => false
  | _ => true
  end.

Definition py_num (v : json) : option Z :=
  match v with
  | JBool b => Some (Z.b2z b)
  | JNum n => Some n
  | _ => None
  end.

(** [a == b] on hashable values: [True == 1] and [False == 0]. *)
Definition py_key_eq (a b : json) : bool :=
  match a, b with
  | JNull, JNull => true
  | JStr s, JStr t => s =? t
  | _, _ =>
      match py_num a, py_num b with
      | Some x, Some y => (x =? y)%Z
      | _, _ => false
      end
  end.

(** A Python dict with arbitrary hashable keys, as its items in insertion
    order. *)
Definition pydict : Type := list (json * json).

Definition has_key (d : pydict) (k : json) : bool :=
  existsb (fun p => py_key_eq (fst p) k) d.

(** [k in d]: the key is hashed first. *)
Definition dict_contains (d : pydict) (k : json) : res bool :=
  if hashable k then Ok (has_key d k) else Raise TypeError.

(** ** The remote service *)

(** The four endpoints; the comment gives the URL the script formats. *)
Inductive request : Type :=
| NameLookup (ingredient : string)   (* rxcui.json?name={ingredient} *)
| AllRelated (rxcui : json)          (* rxcui/{rxcui}/allrelated.json *)
| Ndcs (rxcui : json)                (* rxcui/{rxcui}/ndcs.json *)
| NdcProperties (ndc : json).        (* ndcproperties.json?ndc={ndc} *)

(** What [response.text] and [response.json()] give. *)
Inductive body : Type :=
| Blank                 (* empty, or white space only *)
| Malformed             (* [response.json()] raises a decode error *)
| Json (j : json).

(** [requests.get(url)] raises a [RequestException] or returns a response,
    whatever its status code. *)
Inductive reply : Type :=
| RequestException
| Response (status_code : Z) (b : body).

Definition service : Type := request -> reply.

Definition request_eq_dec (a b : request) : {a = b} + {a <> b}.
Proof.
  decide equality; try apply json_eq_dec. apply string_dec.
Defined.

(** The service that answers [u] with [r] and is [o] elsewhere. *)
Definition with_reply (o : service) (u : request) (r : reply) : service :=
  fun u' => if request_eq_dec u' u then r else o u'.

Definition safe_get_json (o : service) (url : request) : json :=
  match o url with
  | RequestException => JObj []
  | Response _ Blank => JObj []
  | Response _ Malformed => JObj []
  | Response _ (Json j) => j
  end.

(** ** Output records and module-level state *)

Record row : Type := mk_row {
  ingredient : string;
  rxcui : json;
  ndc : json;
  rxcui_description : json;
  ndc_description : json
}.

(** [pd.DataFrame(records)]: one table row per record, in order; the
    columns are the keys of the records. *)
Record dataframe : Type := mk_df {
  columns : list string;
  rows : list row
}.

Definition DataFrame (records : list row) : dataframe :=
  {| columns := match records with
                | [] => []
                | _ :: _ => ["ingredient"; "rxcui"; "ndc";
                             "rxcui description"; "ndc description"]
                end;
     rows := records |}.

Record globals : Type := mk_globals {
  results : list row;
  total_rxcui_count : nat;
  total_ndc_count : nat;
  related_rxcui_dict : pydict;
  ndc_list : option json;        (* [None]: the name is not bound *)
  temp_df : option dataframe
}.

Definition ingredients : list string :=
  ["Exenatide"; "Liraglutide"; "Semaglutide"; "Dulaglutide";
   "Lixisenatide"; "Albiglutide"; "Tirzepatide"].

Definition drug_product_term_types : list string :=
  ["SCD"; "SBD"; "BPCK"; "GPCK"].

(** Lines 37-39. *)
Definition initial_globals : globals :=
  {| results := []; total_rxcui_count := 0; total_ndc_count := 0;
     related_rxcui_dict := []; ndc_list := None; temp_df := None |}.

(** ** Computations over the globals that may raise *)

Definition M (A : Type) : Type := globals -> globals * res A.

Definition ret {A} (a : A) : M A := fun g => (g, Ok a).

Definition bind {A B} (m : M A) (k : A -> M B) : M B :=
  fun g =>
    match m g with
    | (g', Ok a) => k a g'
    | (g', Raise e) => (g', Raise e)
    end.

Definition lift {A} (r : res A) : M A := fun g => (g, r).

Notation "x <- m ;; k" := (bind m (fun x => k))
  (at level 61, m at next level, right associativity).
Notation "m ;; k" := (bind m (fun _ => k))
  (at level 61, right associativity).

Fixpoint for_each {A} (body : A -> M unit) (l : list A) : M unit :=
  match l with
  | [] => ret tt
  | x :: rest => body x ;; for_each body rest
  end.

(** [for x in v: body]. *)
Definition for_in (v : json) (body : json -> M unit) : M unit :=
  l <- lift (py_iter v) ;;
  for_each body l.

Definition results_append (r : row) : M unit :=
  fun g =>
    ({| results := results g ++ [r];
        total_rxcui_count := total_rxcui_count g;
        total_ndc_count := total_ndc_count g;
        related_rxcui_dict := related_rxcui_dict g;
        ndc_list := ndc_list g;
        temp_df := temp_df g |}, Ok tt).

Definition set_related_rxcui_dict (d : pydict) : M unit :=
  fun g =>
    ({| results := results g;
        total_rxcui_count := total_rxcui_count g;
        total_ndc_count := total_ndc_count g;
        related_rxcui_dict := d;
        ndc_list := ndc_list g;
        temp_df := temp_df g |}, Ok tt).

Definition set_ndc_list (v : json) : M unit :=
  fun g =>
    ({| results := results g;
        total_rxcui_count := total_rxcui_count g;
        total_ndc_count := total_ndc_count g;
        related_rxcui_dict := related_rxcui_dict g;
        ndc_list := Some v;
        temp_df := temp_df g |}, Ok tt).

Definition add_total_rxcui_count (n : nat) : M unit :=
  fun g =>
    ({| results := results g;
        total_rxcui_count := total_rxcui_count g + n;
        total_ndc_count := total_ndc_count g;
        related_rxcui_dict := related_rxcui_dict g;
        ndc_list := ndc_list g;
        temp_df := temp_df g |}, Ok tt).

Definition add_total_ndc_count (n : nat) : M unit :=
  fun g =>
    ({| results := results g;
        total_rxcui_count := total_rxcui_count g;
        total_ndc_count := total_ndc_count g + n;
        related_rxcui_dict := related_rxcui_dict g;
        ndc_list := ndc_list g;
        temp_df := temp_df g |}, Ok tt).

Definition set_temp_df : M unit :=
  fun g =>
    ({| results := results g;
        total_rxcui_count := total_rxcui_count g;
        total_ndc_count := total_ndc_count g;
        related_rxcui_dict := related_rxcui_dict g;
        ndc_list := ndc_list g;
        temp_df := Some (DataFrame (results g)) |}, Ok tt).

(** ** Step 1: the initial identifiers of an ingredient (lines 48-51) *)

Definition initial_rxcui_list (o : service) (ing : string) : res json :=
  let initial_data := safe_get_json o (NameLookup ing) in
  match py_get initial_data "idGroup" (JObj []) with
  | Ok g => py_get g "rxnormId" (JArr [])
  | Raise e => Raise e
  end.

(** ** Step 2: relation expansion (lines 60-82) *)

(** Lines 74-79, one concept property entry. *)
Definition expand_entry (cp : json) : M unit :=
  tty <- lift (py_get cp "tty" JNull) ;;
  if py_in_strs tty drug_product_term_types then
    related_id <- lift (py_get cp "rxcui" JNull) ;;
    name <- lift (py_get cp "name" JNull) ;;
    if py_truthy related_id then
      fun g =>
        match dict_contains (related_rxcui_dict g) related_id with
        | Raise e => (g, Raise e)
        | Ok true => (g, Ok tt)
        | Ok false =>
            set_related_rxcui_dict
              (related_rxcui_dict g ++ [(related_id, name)]) g
        end
    else ret tt
  else ret tt.

(** Lines 70-79, one concept group. *)
Definition expand_group (group : json) : M unit :=
  concept_properties <- lift (py_get group "conceptProperties" (JArr [])) ;;
  for_in concept_properties expand_entry.

(** Lines 64-82, one initial identifier. *)
Definition expand_rxcui (o : service) (id : json) : M unit :=
  let related_data := safe_get_json o (AllRelated id) in
  g <- lift (py_get related_data "allRelatedGroup" (JObj [])) ;;
  concept_groups <- lift (py_get g "conceptGroup" (JArr [])) ;;
  for_in concept_groups expand_group.

(** Lines 60-82: a fresh dict, then every initial identifier. *)
Definition expand (o : service) (initial : json) : M unit :=
  set_related_rxcui_dict [] ;;
  for_in initial (expand_rxcui o).

(** ** Step 3: product codes and their properties (lines 85-124) *)

(** Lines 89-91. *)
Definition fetch_ndc_list (o : service) (id : json) : res json :=
  let ndc_data := safe_get_json o (Ndcs id) in
  match py_get ndc_data "ndcGroup" (JObj []) with
  | Raise e => Raise e
  | Ok g =>
      match py_get g "ndcList" (JObj []) with
      | Raise e => Raise e
      | Ok l => py_get l "ndc" (JArr [])
      end
  end.

(** Line 100. *)
Definition fetch_ndc_property (o : service) (code : json) : res json :=
  let ndc_prop_data := safe_get_json o (NdcProperties code) in
  match py_get ndc_prop_data "ndcPropertyGroup" (JObj []) with
  | Raise e => Raise e
  | Ok g => py_get g "ndcProperty" JNull
  end.

(** Lines 99-104. *)
Definition describe (ndc_property : json) : res json :=
  match ndc_property with
  | JArr (first :: _) => py_get first "name" JNull
  | JObj _ => py_get ndc_property "name" JNull
  | _ => Ok JNull
  end.

(** Lines 97-112, one product code. *)
Definition fetch_code (o : service) (ing : string) (id desc code : json)
  : M unit :=
  ndc_property <- lift (fetch_ndc_property o code) ;;
  description <- lift (describe ndc_property) ;;
  results_append
    {| ingredient := ing; rxcui := id; ndc := code;
       rxcui_description := desc; ndc_description := description |}.

(** Lines 89-120, one retained identifier with its description. *)
Definition fetch_rxcui (o : service) (ing : string) (item : json * json)
  : M unit :=
  let (id, desc) := item in
  codes <- lift (fetch_ndc_list o id) ;;
  set_ndc_list codes ;;
  if py_truthy codes then
    n <- lift (py_len codes) ;;
    add_total_ndc_count n ;;
    for_in codes (fetch_code o ing id desc)
  else
    results_append
      {| ingredient := ing; rxcui := id; ndc := JNull;
         rxcui_description := desc; ndc_description := JNull |}.

(** Line 126: [len(ndc_list) if ndc_list else 0]. *)
Definition report_ndc_list : M unit :=
  fun g =>
    match ndc_list g with
    | None => (g, Raise NameError)
    | Some v =>
        if py_truthy v then
          match py_len v with
          | Ok _ => (g, Ok tt)
          | Raise e => (g, Raise e)
          end
        else (g, Ok tt)
    end.

(** Lines 85-130.  Nothing in the loop changes [related_rxcui_dict], so
    its items are read once. *)
Definition fetch_all (o : service) (ing : string) : M unit :=
  fun g =>
    (add_total_rxcui_count (List.length (related_rxcui_dict g)) ;;
     for_each (fetch_rxcui o ing) (related_rxcui_dict g) ;;
     report_ndc_list ;;
     set_temp_df) g.

(** ** The loop over the ingredients (lines 44-130) and the script *)

Definition process_ingredient (o : service) (ing : string) : M unit :=
  initial <- lift (initial_rxcui_list o ing) ;;
  if negb (py_truthy initial) then ret tt            (* continue *)
  else
    _ <- lift (py_len initial) ;;                    (* line 57 *)
    expand o initial ;;
    fetch_all o ing.

Definition main_loop (o : service) (ings : list string) : M unit :=
  for_each (process_ingredient o) ings.

(** The whole script: the globals at its end and [df] (line 134), or the
    exception that stopped it. *)
Definition script (o : service) : globals * res dataframe :=
  match main_loop o ingredients initial_globals with
  | (g, Ok _) => (g, Ok (DataFrame (results g)))
  | (g, Raise e) => (g, Raise e)
  end.

(** ** The data the loops walk over, read off the replies *)

(** The elements of [v], none when [v] cannot be iterated. *)
Definition iter_or_nil (v : json) : list json :=
  match py_iter v with
  | Ok l => l
  | Raise _ => []
  end.

(** The concept property entries of one group, of one initial identifier
    and of all of them, in the order the loops of Step 2 reach them.  A
    part that the script could not read contributes no entry. *)
Definition entries_of_group (group : json) : list json :=
  match py_get group "conceptProperties" (JArr []) with
  | Ok concept_properties => iter_or_nil concept_properties
  | Raise _ => []
  end.

Definition groups_of_rxcui (o : service) (id : json) : list json :=
  match py_get (safe_get_json o (AllRelated id)) "allRelatedGroup" (JObj [])
  with
  | Ok g =>
      match py_get g "conceptGroup" (JArr []) with
      | Ok concept_groups => iter_or_nil concept_groups
      | Raise _ => []
      end
  | Raise _ => []
  end.

Definition entries_of_rxcui (o : service) (id : json) : list json :=
  flat_map entries_of_group (groups_of_rxcui o id).

Definition concept_entries (o : service) (initial : json) : list json :=
  flat_map (entries_of_rxcui o) (iter_or_nil initial).

(** A field of an entry, [None] when it is missing or the entry is no
    dict. *)
Definition field (k : string) (cp : json) : json :=
  match py_get cp k JNull with
  | Ok v => v
  | Raise _ => JNull
  end.

Definition accepted (cp : json) : bool :=
  py_in_strs (field "tty" cp) drug_product_term_types.

(** The dict after an entry was looked at without an exception. *)
Definition insert_entry (d : pydict) (cp : json) : pydict :=
  if accepted cp && py_truthy (field "rxcui" cp)
     && hashable (field "rxcui" cp) && negb (has_key d (field "rxcui" cp))
  then d ++ [(field "rxcui" cp, field "name" cp)]
  else d.

(** The entries that can enter the dict, and the first of them that
    carries a given identifier. *)
Definition candidates (es : list json) : list json :=
  filter (fun cp => accepted cp && py_truthy (field "rxcui" cp)
                    && hashable (field "rxcui" cp)) es.

Definition first_seen (es : list json) (id : json) : option json :=
  find (fun cp => py_key_eq (field "rxcui" cp) id) (candidates es).

(** The identifiers of a list in the order of their first occurrence,
    behind those already [known]. *)
Fixpoint discover (known ids : list json) : list json :=
  match ids with
  | [] => []
  | id :: rest =>
      if existsb (fun k => py_key_eq k id) known
      then discover known rest
      else id :: discover (known ++ [id]) rest
  end.

(** No key of the dict is equal, for Python, to a later one. *)
Fixpoint keys_distinct (d : pydict) : bool :=
  match d with
  | [] => true
  | (k, _) :: rest =>
      negb (existsb (fun p => py_key_eq k (fst p)) rest) && keys_distinct rest
  end.

(** The dict of an ingredient when Step 2 has reached every entry. *)
Definition expansion (o : service) (initial : json) : pydict :=
  fold_left insert_entry (concept_entries o initial) [].

(** The globals with another dict. *)
Definition with_dict (g : globals) (d : pydict) : globals :=
  {| results := results g;
     total_rxcui_count := total_rxcui_count g;
     total_ndc_count := total_ndc_count g;
     related_rxcui_dict := d;
     ndc_list := ndc_list g;
     temp_df := temp_df g |}.

(** The description Step 3 stores for a property payload: the name of the
    first entry of a non-empty list, the name of a single object, [None]
    otherwise. *)
Definition payload_name (ndc_property : json) : json :=
  match ndc_property with
  | JArr (first :: _) => field "name" first
  | JObj _ => field "name" ndc_property
  | _ => JNull
  end.

(** The property payload of a code, [None] when it could not be read. *)
Definition payload (o : service) (code : json) : json :=
  match fetch_ndc_property o code with
  | Ok p => p
  | Raise _ => JNull
  end.

(** The reply to a property request has the shape Step 3 can read: a dict
    whose group, if present, is a dict, and whose payload, if it is a
    non-empty list, starts with a dict. *)
Definition props_readable (o : service) (code : json) : bool :=
  match safe_get_json o (NdcProperties code) with
  | JObj kv =>
      match lookup "ndcPropertyGroup" kv with
      | None => true
      | Some (JObj kv') =>
          match lookup "ndcProperty" kv' with
          | Some (JArr (JObj _ :: _)) => true
          | Some (JArr (_ :: _)) => false
          | _ => true
          end
      | Some _ => false
      end
  | _ => false
  end.

(** The record of a code, and the record of an identifier without one. *)
Definition code_row (o : service) (ing : string) (id desc code : json) : row :=
  {| ingredient := ing; rxcui := id; ndc := code;
     rxcui_description := desc;
     ndc_description := payload_name (payload o code) |}.

Definition null_row (ing : string) (id desc : json) : row :=
  {| ingredient := ing; rxcui := id; ndc := JNull;
     rxcui_description := desc; ndc_description := JNull |}.

(** ** Processing order, after section 4.4 of the specification

    "Insertion order = processing order: ingredient list order, then
    identifier-discovery order, then code order." *)

Definition rows_of_rxcui (o : service) (ing : string) (item : json * json)
  : list row :=
  match fetch_ndc_list o (fst item) with
  | Ok codes =>
      if py_truthy codes
      then map (code_row o ing (fst item) (snd item)) (iter_or_nil codes)
      else [null_row ing (fst item) (snd item)]
  | Raise _ => []
  end.

Definition rows_of_ingredient (o : service) (ing : string) : list row :=
  match initial_rxcui_list o ing with
  | Ok initial =>
      if py_truthy initial
      then flat_map (rows_of_rxcui o ing) (expansion o initial)
      else []
  | Raise _ => []
  end.

Definition ordered_rows (o : service) (ings : list string) : list row :=
  flat_map (rows_of_ingredient o) ings.

Definition triple (r : row) : string * json * json :=
  (ingredient r, rxcui r, ndc r).

Definition is_prefix {A} (l l' : list A) : Prop :=
  exists rest, l' = l ++ rest.

(** ** Failures of the transport, after section 7 of the specification

    "Network failure, HTTP error status, empty body, and JSON-parse
    failure." *)

Definition transport_failure (r : reply) : bool :=
  match r with
  | RequestException => true
  | Response status_code b =>
      (400 <=? status_code)%Z
      || match b with Blank | Malformed => true | Json _ => false end
  end.

(** The failures [safe_get_json] turns into an empty dict. *)
Definition absorbed (r : reply) : bool :=
  match r with
  | RequestException => true
  | Response _ Blank => true
  | Response _ Malformed => true
  | Response _ (Json _) => false
  end.

Definition empty_reply : reply := Response 200 (Json (JObj [])).

(** The name lookup gives no data: the request failed, the body was blank
    or unparseable, or the field is absent. *)
Definition lookup_unavailable (o : service) (ing : string) : bool :=
  match o (NameLookup ing) with
  | Response _ (Json (JObj kv)) =>
      match lookup "idGroup" kv with
      | None => true
      | Some (JObj kv') =>
          match lookup "rxnormId" kv' with None => true | Some _ => false end
      | Some _ => false
      end
  | Response _ (Json _) => false
  | _ => true
  end.

(** The same for the code list of an identifier. *)
Definition codes_unavailable (o : service) (id : json) : bool :=
  match o (Ndcs id) with
  | Response _ (Json (JObj kv)) =>
      match lookup "ndcGroup" kv with
      | None => true
      | Some (JObj kv') =>
          match lookup "ndcList" kv' with
          | None => true
          | Some (JObj kv'') =>
              match lookup "ndc" kv'' with None => true | Some _ => false end
          | Some _ => false
          end
      | Some _ => false
      end
  | Response _ (Json _) => false
  | _ => true
  end.

(** ** What a computation does to a part of the globals

    [tracks_at step proj m g full]: run from [g], the computation [m] walks
    a prefix [seen] of [full], folds [step] over it into the part [proj] of
    the globals, and has walked all of [full] when it ends without an
    exception. *)

Definition tracks_at {S E : Type} (step : S -> E -> S)
  (proj : globals -> S) (m : M unit) (g : globals) (full : list E) : Prop :=
  exists seen rest,
    full = seen ++ rest
    /\ proj (fst (m g)) = fold_left step seen (proj g)
    /\ (snd (m g) = Ok tt -> rest = []).

Definition tracks {S E : Type} (step : S -> E -> S)
  (proj : globals -> S) (m : M unit) (full : list E) : Prop :=
  forall g, tracks_at step proj m g full.

Definition snoc {A : Type} (l : list A) (x : A) : list A := l ++ [x].

(** Step 2 changes the dict only, by [insert_entry]. *)
Definition see_entry (g : globals) (cp : json) : globals :=
  with_dict g (insert_entry (related_rxcui_dict g) cp).

(** The outcome of [m] and the dict it leaves depend on the dict it
    starts with only. *)
Definition reads_dict_only (m : M unit) : Prop :=
  forall g1 g2,
    related_rxcui_dict g1 = related_rxcui_dict g2 ->
    snd (m g1) = snd (m g2)
    /\ related_rxcui_dict (fst (m g1)) = related_rxcui_dict (fst (m g2)).

(** ** Services used as examples *)

Definition ok_json (j : json) : reply := Response 200 (Json j).

Definition concept (id name tty : string) : json :=
  JObj [("rxcui", JStr id); ("name", JStr name); ("tty", JStr tty)].

(** A service that knows the ingredient Exenatide, its identifier 84108
    and the related concept 311036, and takes the four replies. *)
Definition exenatide_service
  (name_reply related_reply ndcs_reply props_reply : reply) : service :=
  fun r =>
    match r with
    | NameLookup ing =>
        if ing =? "Exenatide" then name_reply else RequestException
    | AllRelated id =>
        if py_eq_str id "84108" then related_reply else RequestException
    | Ndcs id =>
        if py_eq_str id "311036" then ndcs_reply else empty_reply
    | NdcProperties _ => props_reply
    end.

Definition exenatide_ids : json :=
  JObj [("idGroup", JObj [("rxnormId", JArr [JStr "84108"])])].

Definition byetta_related : json :=
  JObj [("allRelatedGroup",
         JObj [("conceptGroup",
                JArr [JObj [("tty", JStr "IN")];
                      JObj [("tty", JStr "SCD");
                            ("conceptProperties",
                             JArr [concept "311036"
                                     "exenatide 250 MCG/ML Injectable Solution"
                                     "SCD"])]])])].

Definition byetta_codes : json :=
  JObj [("ndcGroup", JObj [("ndcList", JObj [("ndc", JArr [JStr "00002-1433-01"])])])].

Definition byetta_props : json :=
  JObj [("ndcPropertyGroup",
         JObj [("ndcProperty",
                JObj [("name",
                       JStr "exenatide 250 MCG/ML Injectable Solution [Byetta]")])])].

(** The end-to-end example of section 8 of the specification. *)
Definition byetta_service : service :=
  exenatide_service (ok_json exenatide_ids) (ok_json byetta_related)
    (ok_json byetta_codes) (ok_json byetta_props).

(** The concept has no registered code. *)
Definition no_code_service : service :=
  exenatide_service (ok_json exenatide_ids) (ok_json byetta_related)
    empty_reply (ok_json byetta_props).

(** The code list names one code twice. *)
Definition repeated_code_service : service :=
  exenatide_service (ok_json exenatide_ids) (ok_json byetta_related)
    (ok_json (JObj [("ndcGroup",
                     JObj [("ndcList",
                            JObj [("ndc", JArr [JStr "00002-1433-01";
                                                JStr "00002-1433-01"])])])]))
    (ok_json byetta_props).

(** A reply with status 500 and a body that decodes to identifiers. *)
Definition error_status_reply : reply := Response 500 (Json exenatide_ids).

(** Related concepts with other term types, a repeated identifier under
    two names, and entries without a usable identifier. *)
Definition mixed_related : json :=
  JObj [("allRelatedGroup",
         JObj [("conceptGroup",
                JArr [JObj [("conceptProperties",
                             JArr [concept "84108" "exenatide" "IN";
                                   concept "311036" "first name" "SCD";
                                   JObj [("name", JStr "no identifier");
                                         ("tty", JStr "SBD")];
                                   JObj [("rxcui", JNull);
                                         ("name", JStr "null identifier");
                                         ("tty", JStr "SBD")];
                                   concept "" "empty identifier" "GPCK"])];
                      JObj [("conceptProperties",
                             JArr [concept "311036" "second name" "SBD";
                                   concept "847910" "Byetta pen" "BPCK"])]])])].

Definition mixed_service : service :=
  exenatide_service (ok_json exenatide_ids) (ok_json mixed_related)
    (ok_json byetta_codes) (ok_json byetta_props).

(** The name lookup fails in the transport. *)
Definition failed_lookup_service : service :=
  exenatide_service RequestException (ok_json byetta_related)
    empty_reply (ok_json byetta_props).

(** The related concepts cannot be fetched. *)
Definition failed_related_service : service :=
  exenatide_service (ok_json exenatide_ids) RequestException
    empty_reply (ok_json byetta_props).

(** Two ingredients that resolve to the same identifier. *)
Definition shared_concept_service : service :=
  fun r =>
    match r with
    | NameLookup ing =>
        if (ing =? "Exenatide") || (ing =? "Liraglutide")
        then ok_json exenatide_ids else RequestException
    | _ => byetta_service r
    end.

(** ** Hypotheses on the service *)

(** No code list fetched for a retained identifier names a code twice. *)
Definition no_repeated_code (o : service) (ings : list string) : Prop :=
  forall ing initial item codes,
    In ing ings ->
    initial_rxcui_list o ing = Ok initial ->
    py_truthy initial = true ->
    In item (expansion o initial) ->
    fetch_ndc_list o (fst item) = Ok codes ->
    NoDup (iter_or_nil codes).

(** ** Invariants of a computation *)

(** [keeps I P m]: [m] keeps the invariant [I] of the globals, also when it
    raises, and raises only exceptions in [P]. *)
Definition keeps {A : Type} (I : globals -> Prop) (P : exn -> Prop)
  (m : M A) : Prop :=
  forall g, I g ->
    I (fst (m g)) /\ (forall e, snd (m g) = Raise e -> P e).

(** Every key of [d] is, for Python, a key of [d']. *)
Definition covered (d d' : pydict) : Prop :=
  forall k, has_key d k = true -> has_key d' k = true.

(** From [g] to [g'] the counters grew by [n_rx] and [n_ndc] and the
    collection by [n_rec] records. *)
Definition grew (g g' : globals) (n_rx n_ndc n_rec : nat) : Prop :=
  total_rxcui_count g' = total_rxcui_count g + n_rx
  /\ total_ndc_count g' = total_ndc_count g + n_ndc
  /\ List.length (results g') = List.length (results g) + n_rec.

(** The counters and the collection agree: at least one record per counted
    identifier, one record per counted code, and no record beyond those. *)
Definition accounted (g g' : globals) : Prop :=
  exists n_rx n_ndc n_rec,
    grew g g' n_rx n_ndc n_rec
    /\ n_rx <= n_rec /\ n_ndc <= n_rec /\ n_rec <= n_rx + n_ndc.

(** [m] only adds keys to the dict. *)
Definition grows_dict (m : M unit) : Prop :=
  forall g, covered (related_rxcui_dict g) (related_rxcui_dict (fst (m g))).

(** A normal run of [m] changes nothing when it is repeated on globals
    whose dict has the keys the first run left. *)
Definition absorbs (m : M unit) : Prop :=
  forall ga gb gc,
    m ga = (gb, Ok tt) ->
    covered (related_rxcui_dict gb) (related_rxcui_dict gc) ->
    m gc = (gc, Ok tt).


(** A decoded body of a property reply that line 100 to 104 can read: a
    dict whose group, if present, is a dict, and whose payload, if it is a
    non-empty list, starts with a dict. *)
Definition props_body_readable (j : json) : bool :=
  match j with
  | JObj kv =>
      match lookup "ndcPropertyGroup" kv with
      | None => true
      | Some (JObj kv') =>
          match lookup "ndcProperty" kv' with
          | Some (JArr (JObj _ :: _)) => true
          | Some (JArr (_ :: _)) => false
          | _ => true
          end
      | Some _ => false
      end
  | _ => false
  end.

(** An entry whose identifier cannot be a dict key: accepted term type and
    a non-empty list or dict as identifier. *)
Definition unhashable_entry (cp : json) : bool :=
  accepted cp && py_truthy (field "rxcui" cp)
  && negb (hashable (field "rxcui" cp)).

(** ** More services used as examples *)

(** No request gets through. *)
Definition outage_service : service := fun _ => RequestException.


(** The property reply has a null group. *)
Definition null_group_service : service :=
  exenatide_service (ok_json exenatide_ids) (ok_json byetta_related)
    (ok_json byetta_codes) (ok_json (JObj [("ndcPropertyGroup", JNull)])).

(** Liraglutide has an identifier of its own, 999, whose related concepts
    cannot be fetched. *)
Definition unretained_service : service :=
  fun r =>
    match r with
    | NameLookup ing =>
        if ing =? "Liraglutide"
        then ok_json (JObj [("idGroup", JObj [("rxnormId", JArr [JStr "999"])])])
        else byetta_service r
    | _ => byetta_service r
    end.

(** Two ingredients: Exenatide with the related concepts of
    [mixed_related], of which 311036 has three codes and 847910 none, and
    Liraglutide with one concept that has one code.  The properties of the
    four codes come as a list, as a single object, not at all, and without
    a name. *)
Definition two_ingredient_service : service :=
  fun r =>
    match r with
    | NameLookup ing =>
        if ing =? "Exenatide" then ok_json exenatide_ids
        else if ing =? "Liraglutide"
        then ok_json (JObj [("idGroup",
                             JObj [("rxnormId", JArr [JStr "475968"])])])
        else RequestException
    | AllRelated id =>
        if py_eq_str id "84108" then ok_json mixed_related
        else if py_eq_str id "475968"
        then ok_json
               (JObj [("allRelatedGroup",
                       JObj [("conceptGroup",
                              JArr [JObj [("conceptProperties",
                                           JArr [concept "897122"
                                                   "liraglutide 6 MG/ML Pen Injector [Victoza]"
                                                   "SBD"])]])])])
        else RequestException
    | Ndcs id =>
        if py_eq_str id "311036"
        then ok_json
               (JObj [("ndcGroup",
                       JObj [("ndcList",
                              JObj [("ndc", JArr [JStr "00002-1433-01";
                                                  JStr "00002-1434-01";
                                                  JStr "00002-1435-01"])])])])
        else if py_eq_str id "897122"
        then ok_json
               (JObj [("ndcGroup",
                       JObj [("ndcList",
                              JObj [("ndc", JArr [JStr "00169-4060-12"])])])])
        else empty_reply
    | NdcProperties code =>
        if py_eq_str code "00002-1433-01"
        then ok_json
               (JObj [("ndcPropertyGroup",
                       JObj [("ndcProperty",
                              JArr [JObj [("name", JStr "Byetta 5 MCG pen")];
                                    JObj [("name", JStr "another packaging")]])])])
        else if py_eq_str code "00002-1434-01"
        then ok_json
               (JObj [("ndcPropertyGroup",
                       JObj [("ndcProperty",
                              JObj [("name", JStr "Byetta 10 MCG pen")])])])
        else if py_eq_str code "00169-4060-12"
        then ok_json
               (JObj [("ndcPropertyGroup",
                       JObj [("ndcProperty",
                              JObj [("ndc10", JStr "0169-4060-12")])])])
        else RequestException
    end.

(** ** The triples a run comes across

    A triple of an ingredient of the list, an identifier retained for it
    and a code of the list fetched for the identifier, or the null code
    when that list is empty. *)
Definition observed (o : service) (ings : list string)
  (t : string * json * json) : Prop :=
  In (fst (fst t)) ings
  /\ exists initial desc codes,
       initial_rxcui_list o (fst (fst t)) = Ok initial
       /\ py_truthy initial = true
       /\ In (snd (fst t), desc) (expansion o initial)
       /\ fetch_ndc_list o (snd (fst t)) = Ok codes
       /\ ((py_truthy codes = true /\ In (snd t) (iter_or_nil codes))
           \/ (py_truthy codes = false /\ snd t = JNull)).

(** * Properties *)

(** ** Python equality on keys *)

Lemma py_key_eq_refl (k : json) : hashable k = true -> py_key_eq k k = true.
Proof.
  destruct k; simpl; intros H; try discriminate; auto.
  - apply Z.eqb_refl.
  - apply Z.eqb_refl.
  - apply String.eqb_refl.
Qed.

Lemma py_key_eq_trans (a b c : json) :
  py_key_eq a b = true -> py_key_eq b c = true -> py_key_eq a c = true.
Proof.
  destruct a, b, c; simpl; intros H1 H2; try discriminate; auto;
    try (apply Z.eqb_eq in H1; apply Z.eqb_eq in H2; apply Z.eqb_eq; congruence);
    try (apply String.eqb_eq in H1; apply String.eqb_eq in H2;
         apply String.eqb_eq; congruence).
Qed.

(** ** Computations: general facts *)

Lemma fold_left_snoc {A} (new l : list A) : fold_left snoc new l = l ++ new.
Proof.
  revert l; induction new as [|x new IH]; intros l; simpl.
  - now rewrite app_nil_r.
  - rewrite IH. unfold snoc. now rewrite <- app_assoc.
Qed.

Section Tracks.
Context {S E : Type} (step : S -> E -> S) (proj : globals -> S).

Lemma tracks_at_nothing (m : M unit) (g : globals) (full : list E) :
  proj (fst (m g)) = proj g ->
  (snd (m g) = Ok tt -> full = []) ->
  tracks_at step proj m g full.
Proof.
  intros Hp Hr. exists [], full. simpl. auto.
Qed.

Lemma tracks_ret : tracks step proj (ret tt) [].
Proof.
  intros g. apply tracks_at_nothing; auto.
Qed.

Lemma tracks_at_lift_bind {A} (r : res A) (k : A -> M unit) g full :
  (forall a, r = Ok a -> tracks_at step proj (k a) g full) ->
  tracks_at step proj (bind (lift r) k) g full.
Proof.
  intros H. destruct r as [a|e].
  - exact (H a eq_refl).
  - apply tracks_at_nothing; simpl; auto. discriminate.
Qed.

Lemma tracks_at_seq (m : M unit) (k : unit -> M unit) g l1 l2 :
  tracks_at step proj m g l1 ->
  (snd (m g) = Ok tt -> tracks_at step proj (k tt) (fst (m g)) l2) ->
  tracks_at step proj (bind m k) g (l1 ++ l2).
Proof.
  intros (seen1 & rest1 & E1 & P1 & R1) H2.
  unfold tracks_at, bind.
  destruct (m g) as [g1 [[]|e]] eqn:Em; simpl in *.
  - destruct (H2 eq_refl) as (seen2 & rest2 & E2 & P2 & R2).
    rewrite (R1 eq_refl) in E1. rewrite app_nil_r in E1. subst l1 l2.
    exists (seen1 ++ seen2), rest2. repeat split.
    + now rewrite app_assoc.
    + rewrite P2, P1. now rewrite fold_left_app.
    + exact R2.
  - exists seen1, (rest1 ++ l2). repeat split.
    + subst l1. now rewrite app_assoc.
    + exact P1.
    + discriminate.
Qed.

Lemma tracks_seq (m : M unit) (k : unit -> M unit) l1 l2 :
  tracks step proj m l1 ->
  (forall u, tracks step proj (k u) l2) ->
  tracks step proj (bind m k) (l1 ++ l2).
Proof.
  intros H1 H2 g. apply tracks_at_seq; auto. intros _. apply H2.
Qed.

Lemma tracks_for_each {A} (body : A -> M unit) (f : A -> list E) (l : list A) :
  (forall x, In x l -> tracks step proj (body x) (f x)) ->
  tracks step proj (for_each body l) (flat_map f l).
Proof.
  induction l as [|x l IH]; intros H; simpl.
  - apply tracks_ret.
  - apply tracks_seq.
    + apply H. now left.
    + intros _. apply IH. intros y Hy. apply H. now right.
Qed.

End Tracks.

Lemma flat_map_singleton {A} (l : list A) : flat_map (fun x => [x]) l = l.
Proof.
  induction l as [|x l IH]; simpl; congruence.
Qed.

Lemma tracks_for_in {S E} (step : S -> E -> S) (proj : globals -> S)
  (v : json) (body : json -> M unit) (f : json -> list E) :
  (forall x, tracks step proj (body x) (f x)) ->
  tracks step proj (for_in v body) (flat_map f (iter_or_nil v)).
Proof.
  intros H g. unfold for_in. apply tracks_at_lift_bind. intros l Hl.
  unfold iter_or_nil. rewrite Hl. apply tracks_for_each. auto.
Qed.

Lemma tracks_for_in_map {S E} (step : S -> E -> S) (proj : globals -> S)
  (v : json) (body : json -> M unit) (f : json -> E) :
  (forall x, tracks step proj (body x) [f x]) ->
  tracks step proj (for_in v body) (map f (iter_or_nil v)).
Proof.
  intros H.
  rewrite <- (flat_map_singleton (map f (iter_or_nil v))),
    flat_map_concat_map, map_map, <- flat_map_concat_map.
  now apply tracks_for_in.
Qed.

(** ** Step 2: the loops only insert entries into the dict *)

Lemma with_dict_same (g : globals) : with_dict g (related_rxcui_dict g) = g.
Proof.
  now destruct g.
Qed.

Lemma fold_see_entry (seen : list json) (g : globals) :
  fold_left see_entry seen g
  = with_dict g (fold_left insert_entry seen (related_rxcui_dict g)).
Proof.
  revert g; induction seen as [|cp seen IH]; intros g; simpl.
  - symmetry. apply with_dict_same.
  - rewrite IH. reflexivity.
Qed.

Lemma py_get_field (kv : list (string * json)) (k : string) :
  py_get (JObj kv) k JNull = Ok (field k (JObj kv)).
Proof.
  unfold field, py_get. now destruct (lookup k kv).
Qed.

(** One entry either is looked at to the end, which leaves the dict that
    [insert_entry] gives, or raises and leaves the globals as they were. *)
Lemma expand_entry_cases (cp : json) (g : globals) :
  expand_entry cp g = (see_entry g cp, Ok tt)
  \/ exists e, expand_entry cp g = (g, Raise e).
Proof.
  destruct cp as [| | | | |kv];
    try (right; exists AttributeError; reflexivity).
  unfold expand_entry, see_entry, insert_entry, accepted, bind, lift.
  rewrite !py_get_field.
  destruct (py_in_strs (field "tty" (JObj kv)) drug_product_term_types);
    simpl; [|left; now rewrite with_dict_same].
  destruct (py_truthy (field "rxcui" (JObj kv)));
    simpl; [|left; now rewrite with_dict_same].
  unfold dict_contains.
  destruct (hashable (field "rxcui" (JObj kv)));
    simpl; [|right; now eexists].
  destruct (has_key (related_rxcui_dict g) (field "rxcui" (JObj kv)));
    simpl; left; [now rewrite with_dict_same | reflexivity].
Qed.

Lemma expand_entry_tracks (cp : json) :
  tracks see_entry (fun g => g) (expand_entry cp) [cp].
Proof.
  intros g. destruct (expand_entry_cases cp g) as [H|[e H]].
  - exists [cp], []. rewrite H. simpl. auto.
  - exists [], [cp]. rewrite H. simpl. repeat split; auto. discriminate.
Qed.

Lemma expand_group_tracks (group : json) :
  tracks see_entry (fun g => g) (expand_group group) (entries_of_group group).
Proof.
  intros g. unfold expand_group, entries_of_group.
  apply tracks_at_lift_bind. intros cps Hc. rewrite Hc.
  rewrite <- (flat_map_singleton (iter_or_nil cps)).
  apply tracks_for_in. apply expand_entry_tracks.
Qed.

Lemma expand_rxcui_tracks (o : service) (id : json) :
  tracks see_entry (fun g => g) (expand_rxcui o id) (entries_of_rxcui o id).
Proof.
  intros g. unfold expand_rxcui, entries_of_rxcui, groups_of_rxcui.
  apply tracks_at_lift_bind. intros a Ha. rewrite Ha.
  apply tracks_at_lift_bind. intros groups Hg. rewrite Hg.
  apply tracks_for_in. apply expand_group_tracks.
Qed.

Lemma expand_unfold (o : service) (initial : json) (g : globals) :
  expand o initial g = for_in initial (expand_rxcui o) (with_dict g []).
Proof.
  reflexivity.
Qed.

(** The dict Step 2 leaves is [insert_entry] folded over the entries it
    reached, from the empty dict; nothing else changes. *)
Lemma expand_spec (o : service) (initial : json) (g : globals) :
  exists seen rest,
    concept_entries o initial = seen ++ rest
    /\ fst (expand o initial g) = with_dict g (fold_left insert_entry seen [])
    /\ (snd (expand o initial g) = Ok tt -> rest = []).
Proof.
  destruct (tracks_for_in see_entry (fun g => g) initial (expand_rxcui o)
              (entries_of_rxcui o) (expand_rxcui_tracks o) (with_dict g []))
    as (seen & rest & E & P & R).
  exists seen, rest. split; [exact E|]. split.
  - rewrite expand_unfold, P, fold_see_entry. reflexivity.
  - rewrite expand_unfold. exact R.
Qed.

(** ** The dict as a function of the entries reached *)

Lemma find_app {A} (p : A -> bool) (l1 l2 : list A) :
  find p (l1 ++ l2)
  = match find p l1 with Some x => Some x | None => find p l2 end.
Proof.
  induction l1 as [|x l1 IH]; simpl; [reflexivity|].
  now destruct (p x).
Qed.

Lemma find_none_iff {A} (p : A -> bool) (l : list A) :
  (forall x, In x l -> p x = false) -> find p l = None.
Proof.
  induction l as [|x l IH]; simpl; intros H; [reflexivity|].
  rewrite (H x (or_introl eq_refl)). apply IH. intros y Hy. apply H. now right.
Qed.

Lemma has_key_app (d d' : pydict) (k : json) :
  has_key (d ++ d') k = has_key d k || has_key d' k.
Proof.
  apply existsb_app.
Qed.

Lemma has_key_false (d : pydict) (k : json) :
  has_key d k = false ->
  forall k' v, In (k', v) d -> py_key_eq k' k = false.
Proof.
  unfold has_key. intros H k' v Hin.
  destruct (py_key_eq k' k) eqn:E; [|reflexivity].
  assert (existsb (fun p => py_key_eq (fst p) k) d = true) as C.
  { apply existsb_exists. exists (k', v). auto. }
  congruence.
Qed.

Lemma has_key_true (d : pydict) (k : json) :
  has_key d k = true ->
  exists k' v, In (k', v) d /\ py_key_eq k' k = true.
Proof.
  unfold has_key. intros H. apply existsb_exists in H.
  destruct H as ([k' v] & Hin & He). eauto.
Qed.

Lemma keys_distinct_snoc (d : pydict) (k v : json) :
  keys_distinct (d ++ [(k, v)]) = keys_distinct d && negb (has_key d k).
Proof.
  induction d as [|[k0 v0] d IH]; simpl.
  - reflexivity.
  - rewrite IH, existsb_app. simpl. rewrite orb_false_r.
    destruct (existsb (fun p => py_key_eq k0 (fst p)) d),
      (keys_distinct d), (py_key_eq k0 k), (has_key d k); reflexivity.
Qed.

Lemma candidates_app (es es' : list json) :
  candidates (es ++ es') = candidates es ++ candidates es'.
Proof.
  apply filter_app.
Qed.

Lemma first_seen_app (es rest : list json) (id cp : json) :
  first_seen es id = Some cp -> first_seen (es ++ rest) id = Some cp.
Proof.
  unfold first_seen. intros H. now rewrite candidates_app, find_app, H.
Qed.

Lemma insert_entry_cases (d : pydict) (cp : json) :
  (insert_entry d cp = d ++ [(field "rxcui" cp, field "name" cp)]
   /\ candidates [cp] = [cp]
   /\ has_key d (field "rxcui" cp) = false)
  \/ (insert_entry d cp = d
      /\ (candidates [cp] = []
          \/ candidates [cp] = [cp] /\ has_key d (field "rxcui" cp) = true)).
Proof.
  unfold insert_entry, candidates. simpl.
  destruct (accepted cp && py_truthy (field "rxcui" cp)
            && hashable (field "rxcui" cp)); simpl; auto.
  destruct (has_key d (field "rxcui" cp)); simpl; auto.
Qed.

(** Every item of the dict is the first candidate entry with its key and
    carries that entry's name; every candidate's key is in the dict; no two
    keys are equal; every key is true and hashable. *)
Lemma expansion_invariant (es : list json) :
  let d := fold_left insert_entry es [] in
  (forall id name, In (id, name) d ->
     exists cp, first_seen es id = Some cp
                /\ field "rxcui" cp = id /\ field "name" cp = name)
  /\ (forall cp, In cp (candidates es) -> has_key d (field "rxcui" cp) = true)
  /\ keys_distinct d = true
  /\ (forall id name, In (id, name) d ->
        hashable id = true /\ py_truthy id = true).
Proof.
  induction es as [|cp es IH] using rev_ind; simpl.
  - repeat split; try contradiction; auto.
  - rewrite fold_left_app. simpl.
    set (d := fold_left insert_entry es []) in *.
    destruct IH as (Hfirst & Hcand & Hdist & Hkeys).
    assert (forall c, In c (candidates [cp]) ->
              hashable (field "rxcui" c) = true
              /\ py_truthy (field "rxcui" c) = true) as Hc.
    { intros c Hin. apply filter_In in Hin. destruct Hin as [_ Hin].
      apply andb_true_iff in Hin. destruct Hin as [Hin Hh].
      apply andb_true_iff in Hin. tauto. }
    destruct (insert_entry_cases d cp) as [(Ei & Ec & Hk)|(Ei & Hc')];
      rewrite Ei.
    + (* the entry enters the dict *)
      split; [|split; [|split]].
      * intros id name Hin. apply in_app_or in Hin.
        destruct Hin as [Hin|[Hin|[]]].
        -- destruct (Hfirst id name Hin) as (c & F & Hc1).
           exists c. split; [now apply first_seen_app | exact Hc1].
        -- inversion Hin; subst id name. exists cp. split; [|auto].
           unfold first_seen. rewrite candidates_app, find_app, Ec.
           rewrite find_none_iff.
           ++ simpl. rewrite py_key_eq_refl; [reflexivity|].
              apply Hc. rewrite Ec. now left.
           ++ intros c Hc0.
              destruct (py_key_eq (field "rxcui" c) (field "rxcui" cp))
                eqn:Eq; [|reflexivity].
              destruct (has_key_true _ _ (Hcand c Hc0)) as (k & v & Hkv & Ek).
              pose proof (has_key_false _ _ Hk k v Hkv) as Hf.
              rewrite (py_key_eq_trans _ _ _ Ek Eq) in Hf. discriminate.
      * intros c Hin. rewrite candidates_app in Hin. rewrite has_key_app.
        apply in_app_or in Hin. destruct Hin as [Hin|Hin].
        -- now rewrite (Hcand c Hin).
        -- rewrite Ec in Hin. destruct Hin as [<-|[]].
           unfold has_key at 2. simpl. rewrite py_key_eq_refl.
           ++ apply orb_true_r.
           ++ apply Hc. rewrite Ec. now left.
      * rewrite keys_distinct_snoc, Hdist, Hk. reflexivity.
      * intros id name Hin. apply in_app_or in Hin.
        destruct Hin as [Hin|[Hin|[]]]; [eauto|].
        inversion Hin; subst id name. apply Hc. rewrite Ec. now left.
    + (* the dict stays *)
      split; [|split; [|split]]; auto.
      * intros id name Hin. destruct (Hfirst id name Hin) as (c & F & Hc1).
        exists c. split; [now apply first_seen_app | exact Hc1].
      * intros c Hin. rewrite candidates_app in Hin.
        apply in_app_or in Hin. destruct Hin as [Hin|Hin]; [auto|].
        destruct Hc' as [En|[Ec Hk]]; rewrite ?En, ?Ec in Hin.
        -- contradiction.
        -- destruct Hin as [<-|[]]. exact Hk.
Qed.

Lemma expand_dict_items (o : service) (initial : json) (g : globals)
  (id name : json) :
  In (id, name) (related_rxcui_dict (fst (expand o initial g))) ->
  (exists cp, first_seen (concept_entries o initial) id = Some cp
              /\ field "rxcui" cp = id /\ field "name" cp = name)
  /\ hashable id = true /\ py_truthy id = true.
Proof.
  destruct (expand_spec o initial g) as (seen & rest & E & P & _).
  rewrite P. simpl. intros Hin.
  destruct (expansion_invariant seen) as (Hfirst & _ & _ & Hkeys).
  split; [|now apply Hkeys with name].
  destruct (Hfirst id name Hin) as (cp & F & Hc).
  exists cp. split; [|exact Hc]. rewrite E. now apply first_seen_app.
Qed.

Lemma expand_keys_distinct (o : service) (initial : json) (g : globals) :
  keys_distinct (related_rxcui_dict (fst (expand o initial g))) = true.
Proof.
  destruct (expand_spec o initial g) as (seen & rest & E & P & _).
  rewrite P. simpl. apply (expansion_invariant seen).
Qed.

(** Keys that are pairwise unequal for Python and equal to themselves are
    pairwise different. *)
Lemma keys_distinct_NoDup (d : pydict) :
  keys_distinct d = true ->
  (forall k v, In (k, v) d -> hashable k = true) ->
  NoDup (map fst d).
Proof.
  induction d as [|[k v] d IH]; simpl; intros Hd Hh; constructor.
  - apply andb_true_iff in Hd. destruct Hd as [Hd _].
    apply negb_true_iff in Hd. intros Hin. apply in_map_iff in Hin.
    destruct Hin as ([k' v'] & Ek & Hin). simpl in Ek. subst k'.
    assert (existsb (fun p => py_key_eq k (fst p)) d = true) as C.
    { apply existsb_exists. exists (k, v'). split; [exact Hin|].
      simpl. apply py_key_eq_refl. apply Hh with v. now left. }
    congruence.
  - apply andb_true_iff in Hd. destruct Hd as [_ Hd].
    apply IH; [exact Hd|]. intros k' v' Hin. apply Hh with v'. now right.
Qed.

Lemma first_seen_some (es : list json) (id cp : json) :
  first_seen es id = Some cp ->
  In cp es /\ accepted cp = true /\ py_key_eq (field "rxcui" cp) id = true.
Proof.
  unfold first_seen, candidates. intros H. apply find_some in H.
  destruct H as [Hin Hk]. apply filter_In in Hin. destruct Hin as [Hin Hc].
  apply andb_true_iff in Hc. destruct Hc as [Hc _].
  apply andb_true_iff in Hc. tauto.
Qed.

(** ** Step 2 reads nothing but the dict *)

Lemma reads_dict_only_ret : reads_dict_only (ret tt).
Proof.
  intros g1 g2 H. simpl. auto.
Qed.

Lemma reads_dict_only_lift_bind {A} (r : res A) (k : A -> M unit) :
  (forall a, reads_dict_only (k a)) -> reads_dict_only (bind (lift r) k).
Proof.
  intros H g1 g2 Hd. destruct r as [a|e].
  - exact (H a g1 g2 Hd).
  - simpl. auto.
Qed.

Lemma reads_dict_only_seq (m : M unit) (k : unit -> M unit) :
  reads_dict_only m -> (forall u, reads_dict_only (k u)) ->
  reads_dict_only (bind m k).
Proof.
  intros Hm Hk g1 g2 Hd. destruct (Hm g1 g2 Hd) as [Hr Hd'].
  unfold bind.
  destruct (m g1) as [g1' [[]|e1]], (m g2) as [g2' [[]|e2]]; simpl in *;
    try discriminate.
  - apply Hk. exact Hd'.
  - auto.
Qed.

Lemma reads_dict_only_for_each {A} (body : A -> M unit) (l : list A) :
  (forall x, reads_dict_only (body x)) -> reads_dict_only (for_each body l).
Proof.
  intros H. induction l as [|x l IH]; simpl.
  - apply reads_dict_only_ret.
  - apply reads_dict_only_seq; auto.
Qed.

Lemma reads_dict_only_for_in (v : json) (body : json -> M unit) :
  (forall x, reads_dict_only (body x)) -> reads_dict_only (for_in v body).
Proof.
  intros H. unfold for_in. apply reads_dict_only_lift_bind.
  intros l. now apply reads_dict_only_for_each.
Qed.

Lemma reads_dict_only_expand_entry (cp : json) :
  reads_dict_only (expand_entry cp).
Proof.
  intros g1 g2 Hd.
  destruct cp as [| | | | |kv]; try (simpl; now auto).
  unfold expand_entry, bind, lift. rewrite !py_get_field.
  destruct (py_in_strs (field "tty" (JObj kv)) drug_product_term_types);
    simpl; auto.
  destruct (py_truthy (field "rxcui" (JObj kv))); simpl; auto.
  unfold dict_contains. rewrite Hd.
  destruct (hashable (field "rxcui" (JObj kv))); simpl; auto.
  destruct (has_key (related_rxcui_dict g2) (field "rxcui" (JObj kv)));
    simpl; auto.
Qed.

Lemma reads_dict_only_expand_rxcui (o : service) (id : json) :
  reads_dict_only (expand_rxcui o id).
Proof.
  unfold expand_rxcui.
  apply reads_dict_only_lift_bind. intros g.
  apply reads_dict_only_lift_bind. intros groups.
  apply reads_dict_only_for_in. intros group. unfold expand_group.
  apply reads_dict_only_lift_bind. intros cps.
  apply reads_dict_only_for_in. apply reads_dict_only_expand_entry.
Qed.

(** The dict is built from the empty dict, whatever the globals held. *)
Lemma expand_fresh (o : service) (initial : json) (g1 g2 : globals) :
  snd (expand o initial g1) = snd (expand o initial g2)
  /\ related_rxcui_dict (fst (expand o initial g1))
     = related_rxcui_dict (fst (expand o initial g2)).
Proof.
  rewrite !expand_unfold.
  apply reads_dict_only_for_in; [|reflexivity].
  apply reads_dict_only_expand_rxcui.
Qed.

(** ** Claims on the relation expansion *)

(** C4: an identifier is in the dict that Step 2 builds only if a concept
    property entry of the related-concept replies carries it under a term
    type of the accepted set SCD, SBD, BPCK, GPCK; an entry whose term type
    is another one, or missing, leaves the globals as they are. *)
Theorem C4_only_accepted_term_types
  (o : service) (initial : json) (g : globals) :
  (forall id name,
     In (id, name) (related_rxcui_dict (fst (expand o initial g))) ->
     exists cp, In cp (concept_entries o initial) /\ accepted cp = true
                /\ field "rxcui" cp = id /\ field "name" cp = name)
  /\ (forall cp g', accepted cp = false -> fst (expand_entry cp g') = g')
  /\ (forall cp, accepted cp = true <->
        exists t, field "tty" cp = JStr t
                  /\ In t ["SCD"; "SBD"; "BPCK"; "GPCK"]).
Proof.
  split; [|split].
  - intros id name Hin.
    destruct (expand_dict_items o initial g id name Hin)
      as ((cp & F & Hid & Hname) & _).
    destruct (first_seen_some _ _ _ F) as (Hcp & Hacc & _).
    exists cp. auto.
  - intros cp g' Hacc.
    destruct (expand_entry_cases cp g') as [H|[e H]]; rewrite H; simpl; auto.
    unfold see_entry, insert_entry. rewrite Hacc. simpl.
    apply with_dict_same.
  - intros cp. unfold accepted, py_in_strs, drug_product_term_types.
    rewrite existsb_exists. split.
    + intros (t & Hin & Ht). destruct (field "tty" cp); try discriminate.
      simpl in Ht. apply String.eqb_eq in Ht. subst. eauto.
    + intros (t & Ht & Hin). exists t. split; [exact Hin|].
      rewrite Ht. simpl. apply String.eqb_refl.
Qed.

Lemma C4_witness :
  exists cp, In cp (concept_entries mixed_service (JArr [JStr "84108"]))
             /\ accepted cp = true
             /\ field "rxcui" cp = JStr "311036"
             /\ field "name" cp = JStr "first name".
Proof.
  apply (proj1 (C4_only_accepted_term_types mixed_service
                  (JArr [JStr "84108"]) initial_globals)).
  vm_compute. left. reflexivity.
Defined.

(** C5: in the dict that Step 2 builds for one ingredient no two keys are
    equal, each key stands with the name of the first entry that carried
    it, and the dict does not depend on what the globals held before, so
    nothing is carried over from the ingredient before. *)
Theorem C5_first_seen_once_per_ingredient
  (o : service) (initial : json) (g : globals) :
  let d := related_rxcui_dict (fst (expand o initial g)) in
  keys_distinct d = true
  /\ NoDup (map fst d)
  /\ (forall id name, In (id, name) d ->
        exists cp, first_seen (concept_entries o initial) id = Some cp
                   /\ field "rxcui" cp = id /\ field "name" cp = name)
  /\ (forall g2, related_rxcui_dict (fst (expand o initial g2)) = d).
Proof.
  simpl. split; [|split; [|split]].
  - apply expand_keys_distinct.
  - apply keys_distinct_NoDup; [apply expand_keys_distinct|].
    intros k v Hin. apply (expand_dict_items o initial g k v Hin).
  - intros id name Hin. apply (expand_dict_items o initial g id name Hin).
  - intros g2. apply expand_fresh.
Qed.

Lemma C5_witness :
  exists cp,
    first_seen (concept_entries mixed_service (JArr [JStr "84108"]))
      (JStr "311036") = Some cp
    /\ field "rxcui" cp = JStr "311036"
    /\ field "name" cp = JStr "first name".
Proof.
  apply (proj1 (proj2 (proj2 (C5_first_seen_once_per_ingredient mixed_service
                  (JArr [JStr "84108"]) initial_globals)))).
  vm_compute. left. reflexivity.
Defined.

(** The same identifier under two ingredients is kept under both. *)
Lemma same_identifier_under_two_ingredients :
  map triple
    (results (fst (main_loop shared_concept_service
                     ["Exenatide"; "Liraglutide"] initial_globals)))
  = [("Exenatide", JStr "311036", JStr "00002-1433-01");
     ("Liraglutide", JStr "311036", JStr "00002-1433-01")].
Proof.
  vm_compute. reflexivity.
Qed.

(** C10: an entry with an accepted term type whose identifier is missing,
    null or the empty string is passed over without an exception and
    without a change of the globals, and no key of the dict that Step 2
    builds is null or the empty string. *)
Theorem C10_entry_without_identifier_dropped :
  (forall kv g,
     accepted (JObj kv) = true ->
     lookup "rxcui" kv = None \/ lookup "rxcui" kv = Some JNull
     \/ lookup "rxcui" kv = Some (JStr "") ->
     expand_entry (JObj kv) g = (g, Ok tt))
  /\ (forall o initial g id name,
        In (id, name) (related_rxcui_dict (fst (expand o initial g))) ->
        py_truthy id = true /\ id <> JNull /\ id <> JStr "").
Proof.
  split.
  - intros kv g Hacc Hid.
    assert (py_truthy (field "rxcui" (JObj kv)) = false) as Hf.
    { unfold field, py_get. destruct Hid as [->|[->| ->]]; reflexivity. }
    unfold expand_entry, bind, lift. rewrite !py_get_field.
    unfold accepted in Hacc. rewrite Hacc. simpl. rewrite Hf. reflexivity.
  - intros o initial g id name Hin.
    destruct (expand_dict_items o initial g id name Hin) as (_ & _ & Ht).
    split; [exact Ht|]. split; intros ->; discriminate.
Qed.

Lemma C10_witness :
  expand_entry
    (JObj [("rxcui", JNull); ("name", JStr "null identifier");
           ("tty", JStr "SBD")]) initial_globals
  = (initial_globals, Ok tt).
Proof.
  apply (proj1 C10_entry_without_identifier_dropped).
  - reflexivity.
  - right. left. reflexivity.
Defined.

(** ** Step 3: the records of one identifier *)

Lemma describe_payload_name (p d : json) :
  describe p = Ok d -> d = payload_name p.
Proof.
  unfold describe, payload_name, field.
  destruct p as [| | | |[|first l]|kv]; try (intros H; congruence).
  - intros H. now rewrite H.
  - intros H. now rewrite H.
Qed.

Lemma props_readable_ok (o : service) (code : json) :
  props_readable o code = true ->
  fetch_ndc_property o code = Ok (payload o code)
  /\ describe (payload o code) = Ok (payload_name (payload o code)).
Proof.
  unfold props_readable, payload, fetch_ndc_property.
  destruct (safe_get_json o (NdcProperties code)) as [| | | | |kv];
    try discriminate.
  simpl. destruct (lookup "ndcPropertyGroup" kv) as [[| | | | |kv']|];
    try discriminate; simpl.
  - destruct (lookup "ndcProperty" kv') as [p|]; simpl; [|auto].
    intros H. split; [reflexivity|].
    destruct p as [| | | |[|first l]|kv'']; simpl; auto.
    + destruct first; try discriminate. simpl. unfold field. simpl.
      now destruct (lookup "name" kv0).
    + unfold field. simpl. now destruct (lookup "name" kv'').
  - auto.
Qed.

Lemma fetch_code_ok (o : service) (ing : string) (id desc code : json)
  (g : globals) :
  props_readable o code = true ->
  fetch_code o ing id desc code g
  = results_append (code_row o ing id desc code) g.
Proof.
  intros H. destruct (props_readable_ok o code H) as [Hp Hd].
  unfold fetch_code, bind, lift. rewrite Hp, Hd. reflexivity.
Qed.

(** A property reply of another shape stops the script. *)
Lemma fetch_code_unreadable (o : service) (ing : string)
  (id desc code : json) (g : globals) :
  props_readable o code = false ->
  fetch_code o ing id desc code g = (g, Raise AttributeError).
Proof.
  unfold props_readable, fetch_code, fetch_ndc_property, bind, lift.
  destruct (safe_get_json o (NdcProperties code)) as [| | | | |kv];
    try reflexivity.
  simpl. destruct (lookup "ndcPropertyGroup" kv) as [[| | | | |kv']|];
    try reflexivity; try discriminate; simpl.
  destruct (lookup "ndcProperty" kv') as [[| | | |[|first l]|kv'']|];
    try discriminate; simpl.
  destruct first; try discriminate; reflexivity.
Qed.

Lemma for_each_fetch_code_ok (o : service) (ing : string) (id desc : json)
  (l : list json) (g : globals) :
  (forall c, In c l -> props_readable o c = true) ->
  for_each (fetch_code o ing id desc) l g
  = ({| results := results g ++ map (code_row o ing id desc) l;
        total_rxcui_count := total_rxcui_count g;
        total_ndc_count := total_ndc_count g;
        related_rxcui_dict := related_rxcui_dict g;
        ndc_list := ndc_list g;
        temp_df := temp_df g |}, Ok tt).
Proof.
  revert g; induction l as [|c l IH]; intros g H; simpl.
  - rewrite app_nil_r. now destruct g.
  - unfold bind. rewrite fetch_code_ok by (apply H; now left).
    simpl. rewrite IH by (intros c' Hc; apply H; now right).
    simpl. now rewrite <- app_assoc.
Qed.

Lemma length_chars (s : string) : List.length (chars s) = String.length s.
Proof.
  induction s as [|c s IH]; simpl; congruence.
Qed.

Lemma py_len_iter (v : json) (l : list json) :
  py_iter v = Ok l -> py_len v = Ok (List.length l).
Proof.
  destruct v; simpl; intros H; inversion H; subst; try reflexivity.
  - now rewrite length_chars.
  - now rewrite length_map.
Qed.

(** ** Claims on the code fetcher *)

(** C6: for an identifier whose fetched code list is empty (or false in
    another way), Step 3 appends exactly one record, with null code and
    null product description and with the ingredient, the identifier and
    the concept description filled in; a request that failed, a blank or
    unparseable body and an absent field all give the empty list. *)
Theorem C6_no_code_one_null_record
  (o : service) (ing : string) (id desc : json) (g : globals) :
  (forall codes,
     fetch_ndc_list o id = Ok codes -> py_truthy codes = false ->
     fetch_rxcui o ing (id, desc) g
     = ({| results := results g ++
                      [{| ingredient := ing; rxcui := id; ndc := JNull;
                          rxcui_description := desc;
                          ndc_description := JNull |}];
           total_rxcui_count := total_rxcui_count g;
           total_ndc_count := total_ndc_count g;
           related_rxcui_dict := related_rxcui_dict g;
           ndc_list := Some codes;
           temp_df := temp_df g |}, Ok tt))
  /\ (codes_unavailable o id = true -> fetch_ndc_list o id = Ok (JArr [])).
Proof.
  split.
  - intros codes Hf Ht. unfold fetch_rxcui, bind, lift.
    rewrite Hf. simpl. rewrite Ht. reflexivity.
  - unfold codes_unavailable, fetch_ndc_list, safe_get_json.
    destruct (o (Ndcs id)) as [|status [| |j]]; try reflexivity.
    destruct j as [| | | | |kv]; try discriminate. simpl.
    destruct (lookup "ndcGroup" kv) as [[| | | | |kv']|];
      try discriminate; simpl; [|reflexivity].
    destruct (lookup "ndcList" kv') as [[| | | | |kv'']|];
      try discriminate; simpl; [|reflexivity].
    destruct (lookup "ndc" kv''); [discriminate|reflexivity].
Qed.

Lemma C6_witness :
  fetch_rxcui no_code_service "Exenatide"
    (JStr "311036", JStr "exenatide 250 MCG/ML Injectable Solution")
    initial_globals
  = ({| results :=
          [{| ingredient := "Exenatide"; rxcui := JStr "311036";
              ndc := JNull;
              rxcui_description :=
                JStr "exenatide 250 MCG/ML Injectable Solution";
              ndc_description := JNull |}];
        total_rxcui_count := 0; total_ndc_count := 0;
        related_rxcui_dict := []; ndc_list := Some (JArr []);
        temp_df := None |}, Ok tt).
Proof.
  apply (proj1 (C6_no_code_one_null_record no_code_service "Exenatide"
                  (JStr "311036")
                  (JStr "exenatide 250 MCG/ML Injectable Solution")
                  initial_globals) (JArr [])).
  - apply (proj2 (C6_no_code_one_null_record no_code_service "Exenatide"
                    (JStr "311036") JNull initial_globals)).
    reflexivity.
  - reflexivity.
Defined.

Lemma for_each_fetch_code_stops (o : service) (ing : string)
  (id desc : json) (l1 : list json) (c : json) (l2 : list json)
  (g : globals) :
  (forall x, In x l1 -> props_readable o x = true) ->
  props_readable o c = false ->
  for_each (fetch_code o ing id desc) (l1 ++ c :: l2) g
  = ({| results := results g ++ map (code_row o ing id desc) l1;
        total_rxcui_count := total_rxcui_count g;
        total_ndc_count := total_ndc_count g;
        related_rxcui_dict := related_rxcui_dict g;
        ndc_list := ndc_list g;
        temp_df := temp_df g |}, Raise AttributeError).
Proof.
  revert g; induction l1 as [|x l1 IH]; intros g H1 Hc; simpl.
  - unfold bind. rewrite fetch_code_unreadable by exact Hc.
    rewrite app_nil_r. now destruct g.
  - unfold bind. rewrite fetch_code_ok by (apply H1; now left).
    simpl. rewrite IH; [|intros y Hy; apply H1; now right | exact Hc].
    simpl. now rewrite <- app_assoc.
Qed.

(** C7, as the script has it: for an identifier whose fetched code list is
    a list [l] of one code or more: when the property reply of every code
    has a shape Step 3 can read (which a failed, blank or unparseable reply
    has), Step 3 appends exactly one record per code, in the order of the
    list, each with the description of the code's property payload: the
    name of the first entry of a non-empty list, the name of a single
    object, null when the payload is absent, empty or without a name; when
    the property reply of a code has another shape, the records of the
    codes before the first such code are appended and the script stops
    there with [AttributeError]. *)
Theorem C7_one_record_per_code
  (o : service) (ing : string) (id desc : json) (l : list json)
  (g : globals) :
  fetch_ndc_list o id = Ok (JArr l) ->
  l <> [] ->
  ((forall c, In c l -> props_readable o c = true) ->
   fetch_rxcui o ing (id, desc) g
   = ({| results := results g ++
                    map (fun c =>
                           {| ingredient := ing; rxcui := id; ndc := c;
                              rxcui_description := desc;
                              ndc_description :=
                                match payload o c with
                                | JArr (first :: _) => field "name" first
                                | JObj _ => field "name" (payload o c)
                                | _ => JNull
                                end |}) l;
         total_rxcui_count := total_rxcui_count g;
         total_ndc_count := total_ndc_count g + List.length l;
         related_rxcui_dict := related_rxcui_dict g;
         ndc_list := Some (JArr l);
         temp_df := temp_df g |}, Ok tt)
   /\ List.length (results (fst (fetch_rxcui o ing (id, desc) g)))
      = List.length (results g) + List.length l)
  /\ (forall l1 c l2,
        l = l1 ++ c :: l2 ->
        (forall x, In x l1 -> props_readable o x = true) ->
        props_readable o c = false ->
        fetch_rxcui o ing (id, desc) g
        = ({| results := results g ++
                         map (fun c =>
                                {| ingredient := ing; rxcui := id; ndc := c;
                                   rxcui_description := desc;
                                   ndc_description :=
                                     match payload o c with
                                     | JArr (first :: _) => field "name" first
                                     | JObj _ => field "name" (payload o c)
                                     | _ => JNull
                                     end |}) l1;
              total_rxcui_count := total_rxcui_count g;
              total_ndc_count := total_ndc_count g + List.length l;
              related_rxcui_dict := related_rxcui_dict g;
              ndc_list := Some (JArr l);
              temp_df := temp_df g |}, Raise AttributeError)).
Proof.
  intros Hf Hne.
  assert (py_truthy (JArr l) = true) as Ht.
  { destruct l; [now destruct Hne | reflexivity]. }
  split.
  - intros Hr.
    assert (fetch_rxcui o ing (id, desc) g
            = ({| results := results g ++ map (code_row o ing id desc) l;
                  total_rxcui_count := total_rxcui_count g;
                  total_ndc_count := total_ndc_count g + List.length l;
                  related_rxcui_dict := related_rxcui_dict g;
                  ndc_list := Some (JArr l);
                  temp_df := temp_df g |}, Ok tt)) as E.
    { unfold fetch_rxcui, for_in, bind, lift.
      rewrite Hf. cbn [fst snd set_ndc_list]. rewrite Ht.
      cbn [py_len py_iter fst snd add_total_ndc_count].
      rewrite for_each_fetch_code_ok by exact Hr. reflexivity. }
    split.
    + rewrite E. reflexivity.
    + rewrite E. cbn [fst results]. now rewrite length_app, length_map.
  - intros l1 c l2 El H1 Hc. subst l.
    unfold fetch_rxcui, for_in, bind, lift.
    rewrite Hf. cbn [fst snd set_ndc_list]. rewrite Ht.
    cbn [py_len py_iter fst snd add_total_ndc_count].
    rewrite for_each_fetch_code_stops by assumption. reflexivity.
Qed.

Lemma C7_witness :
  results (fst (fetch_rxcui two_ingredient_service "Exenatide"
                  (JStr "311036", JStr "first name") initial_globals))
  = [{| ingredient := "Exenatide"; rxcui := JStr "311036";
        ndc := JStr "00002-1433-01";
        rxcui_description := JStr "first name";
        ndc_description := JStr "Byetta 5 MCG pen" |};
     {| ingredient := "Exenatide"; rxcui := JStr "311036";
        ndc := JStr "00002-1434-01";
        rxcui_description := JStr "first name";
        ndc_description := JStr "Byetta 10 MCG pen" |};
     {| ingredient := "Exenatide"; rxcui := JStr "311036";
        ndc := JStr "00002-1435-01";
        rxcui_description := JStr "first name";
        ndc_description := JNull |}].
Proof.
  assert (forall c, In c [JStr "00002-1433-01"; JStr "00002-1434-01";
                          JStr "00002-1435-01"] ->
                    props_readable two_ingredient_service c = true) as H.
  { intros c [<-|[<-|[<-|[]]]]; reflexivity. }
  assert ([JStr "00002-1433-01"; JStr "00002-1434-01"; JStr "00002-1435-01"]
          <> []) as Hne by discriminate.
  rewrite (proj1 (proj1 (C7_one_record_per_code two_ingredient_service
                           "Exenatide" (JStr "311036") (JStr "first name")
                           [JStr "00002-1433-01"; JStr "00002-1434-01";
                            JStr "00002-1435-01"]
                           initial_globals eq_refl Hne) H)).
  reflexivity.
Defined.

(** C7 as the specification states it fails when a property reply cannot
    be read: with one code in the fetched list and a property reply whose
    group is null, no record is appended and the script stops. *)
Lemma C7_counterexample :
  ~ (forall (o : service) (ing : string) (id desc : json) (l : list json)
            (g : globals),
       fetch_ndc_list o id = Ok (JArr l) ->
       List.length (results (fst (fetch_rxcui o ing (id, desc) g)))
       = List.length (results g) + List.length l).
Proof.
  intros H.
  specialize (H null_group_service "Exenatide" (JStr "311036")
                (JStr "exenatide 250 MCG/ML Injectable Solution")
                [JStr "00002-1433-01"] initial_globals eq_refl).
  vm_compute in H. discriminate H.
Qed.

(** ** The records in processing order *)

Lemma results_append_tracks (r : row) :
  tracks snoc results (results_append r) [r].
Proof.
  intros g. exists [r], []. simpl. auto.
Qed.

Lemma set_ndc_list_tracks (v : json) :
  tracks snoc results (set_ndc_list v) [].
Proof.
  intros g. apply tracks_at_nothing; auto.
Qed.

Lemma add_total_ndc_count_tracks (n : nat) :
  tracks snoc results (add_total_ndc_count n) [].
Proof.
  intros g. apply tracks_at_nothing; auto.
Qed.

Lemma add_total_rxcui_count_tracks (n : nat) :
  tracks snoc results (add_total_rxcui_count n) [].
Proof.
  intros g. apply tracks_at_nothing; auto.
Qed.

Lemma set_temp_df_tracks : tracks snoc results set_temp_df [].
Proof.
  intros g. apply tracks_at_nothing; auto.
Qed.

Lemma report_ndc_list_tracks : tracks snoc results report_ndc_list [].
Proof.
  intros g. apply tracks_at_nothing; auto.
  unfold report_ndc_list. destruct (ndc_list g) as [v|]; [|reflexivity].
  destruct (py_truthy v); [|reflexivity]. now destruct (py_len v).
Qed.

Lemma fetch_code_tracks (o : service) (ing : string) (id desc code : json) :
  tracks snoc results (fetch_code o ing id desc code)
    [code_row o ing id desc code].
Proof.
  intros g. unfold fetch_code.
  apply tracks_at_lift_bind. intros p Hp.
  apply tracks_at_lift_bind. intros d Hd.
  unfold code_row, payload. rewrite Hp, <- (describe_payload_name p d Hd).
  apply results_append_tracks.
Qed.

Lemma fetch_rxcui_tracks (o : service) (ing : string) (item : json * json) :
  tracks snoc results (fetch_rxcui o ing item) (rows_of_rxcui o ing item).
Proof.
  intros g. destruct item as [id desc]. unfold fetch_rxcui, rows_of_rxcui.
  simpl fst. simpl snd.
  apply tracks_at_lift_bind. intros codes Hc. rewrite Hc.
  apply (tracks_at_seq snoc results _ _ g []); [apply set_ndc_list_tracks|].
  intros _. destruct (py_truthy codes).
  - apply tracks_at_lift_bind. intros n _.
    apply (tracks_at_seq snoc results _ _ _ []);
      [apply add_total_ndc_count_tracks|].
    intros _.
    apply (tracks_for_in_map snoc results codes _ (code_row o ing id desc)).
    intros c. apply fetch_code_tracks.
  - apply results_append_tracks.
Qed.

Lemma fetch_tail_tracks (o : service) (ing : string) (d : pydict) :
  tracks snoc results
    (for_each (fetch_rxcui o ing) d ;; report_ndc_list ;; set_temp_df)
    (flat_map (rows_of_rxcui o ing) d).
Proof.
  rewrite <- (app_nil_r (flat_map (rows_of_rxcui o ing) d)).
  apply tracks_seq.
  - apply tracks_for_each. intros item _. apply fetch_rxcui_tracks.
  - intros _. apply (tracks_seq snoc results _ _ [] []).
    + apply report_ndc_list_tracks.
    + intros _. apply set_temp_df_tracks.
Qed.

Lemma fetch_all_tracks (o : service) (ing : string) (g : globals) :
  tracks_at snoc results (fetch_all o ing) g
    (flat_map (rows_of_rxcui o ing) (related_rxcui_dict g)).
Proof.
  change (tracks_at snoc results
            (add_total_rxcui_count (List.length (related_rxcui_dict g)) ;;
             for_each (fetch_rxcui o ing) (related_rxcui_dict g) ;;
             report_ndc_list ;;
             set_temp_df) g
            (flat_map (rows_of_rxcui o ing) (related_rxcui_dict g))).
  apply (tracks_at_seq snoc results _ _ g []
           (flat_map (rows_of_rxcui o ing) (related_rxcui_dict g)));
    [apply add_total_rxcui_count_tracks|].
  intros _. apply fetch_tail_tracks.
Qed.

Lemma expand_keeps_results (o : service) (initial : json) (g : globals) :
  results (fst (expand o initial g)) = results g.
Proof.
  destruct (expand_spec o initial g) as (seen & rest & _ & P & _).
  now rewrite P.
Qed.

Lemma expand_ok_dict (o : service) (initial : json) (g : globals) :
  snd (expand o initial g) = Ok tt ->
  related_rxcui_dict (fst (expand o initial g)) = expansion o initial.
Proof.
  destruct (expand_spec o initial g) as (seen & rest & E & P & R).
  intros H. rewrite P. simpl. unfold expansion.
  rewrite E, (R H), app_nil_r. reflexivity.
Qed.

Lemma process_ingredient_tracks (o : service) (ing : string) :
  tracks snoc results (process_ingredient o ing) (rows_of_ingredient o ing).
Proof.
  intros g. unfold process_ingredient, rows_of_ingredient.
  apply tracks_at_lift_bind. intros initial Hi. rewrite Hi.
  destruct (py_truthy initial); simpl.
  - apply tracks_at_lift_bind. intros n _.
    apply (tracks_at_seq snoc results _ _ g []).
    + apply tracks_at_nothing; [apply expand_keeps_results | reflexivity].
    + intros Hok. rewrite <- (expand_ok_dict o initial g Hok).
      apply fetch_all_tracks.
  - apply tracks_ret.
Qed.

Lemma main_loop_tracks (o : service) (ings : list string) :
  tracks snoc results (main_loop o ings) (ordered_rows o ings).
Proof.
  apply tracks_for_each. intros ing _. apply process_ingredient_tracks.
Qed.

Lemma script_rows (o : service) (df : dataframe) :
  snd (script o) = Ok df ->
  snd (main_loop o ingredients initial_globals) = Ok tt
  /\ rows df = results (fst (main_loop o ingredients initial_globals)).
Proof.
  unfold script.
  destruct (main_loop o ingredients initial_globals) as [g [[]|e]];
    simpl; intros H; inversion H; auto.
Qed.

Lemma insert_entries_discover (es : list json) (d : pydict) :
  map fst (fold_left insert_entry es d)
  = map fst d
    ++ discover (map fst d) (map (field "rxcui") (candidates es)).
Proof.
  revert d. induction es as [|cp es IH]; intros d.
  - simpl. now rewrite app_nil_r.
  - change (fold_left insert_entry (cp :: es) d)
      with (fold_left insert_entry es (insert_entry d cp)).
    rewrite IH. unfold insert_entry, candidates. simpl.
    assert (has_key d (field "rxcui" cp)
            = existsb (fun k => py_key_eq k (field "rxcui" cp)) (map fst d))
      as Hk.
    { unfold has_key. induction d as [|p d IHd]; simpl; congruence. }
    destruct (accepted cp && py_truthy (field "rxcui" cp)
              && hashable (field "rxcui" cp)); simpl; [|reflexivity].
    rewrite <- Hk. destruct (has_key d (field "rxcui" cp)); simpl.
    + reflexivity.
    + rewrite map_app, <- app_assoc. reflexivity.
Qed.

(** C9: whatever the globals hold when the loop over the ingredients
    starts, the records it has appended when it ends or is stopped are the
    first records of the processing order (ingredient by ingredient in list
    order, identifier by identifier in discovery order, code by code in
    list order), behind the records that were there, which stay in place;
    when it ends without an exception all of them are there, and the final
    table has them as its rows in that order.  The discovery order of the
    identifiers of an ingredient is the order in which they first occur in
    the entries that can enter the dict. *)
Theorem C9_records_in_processing_order (o : service) :
  (forall ings g,
     exists seen rest,
       ordered_rows o ings = seen ++ rest
       /\ results (fst (main_loop o ings g)) = results g ++ seen
       /\ (snd (main_loop o ings g) = Ok tt -> rest = []))
  /\ (forall df, snd (script o) = Ok df ->
        rows df = ordered_rows o ingredients)
  /\ (forall initial,
        map fst (expansion o initial)
        = discover [] (map (field "rxcui")
                         (candidates (concept_entries o initial)))).
Proof.
  split; [|split].
  3: { intros initial. unfold expansion.
       now rewrite insert_entries_discover. }
  - intros ings g.
    destruct (main_loop_tracks o ings g) as (seen & rest & E & P & R).
    exists seen, rest. rewrite P, fold_left_snoc. auto.
  - intros df H. destruct (script_rows o df H) as [Hok ->].
    destruct (main_loop_tracks o ingredients initial_globals)
      as (seen & rest & E & P & R).
    rewrite P, fold_left_snoc, E, (R Hok), app_nil_r. reflexivity.
Qed.

Lemma C9_witness :
  map triple
    (rows (DataFrame
             (results (fst (main_loop two_ingredient_service ingredients
                              initial_globals)))))
  = [("Exenatide", JStr "311036", JStr "00002-1433-01");
     ("Exenatide", JStr "311036", JStr "00002-1434-01");
     ("Exenatide", JStr "311036", JStr "00002-1435-01");
     ("Exenatide", JStr "847910", JNull);
     ("Liraglutide", JStr "897122", JStr "00169-4060-12")].
Proof.
  assert (snd (script two_ingredient_service)
          = Ok (DataFrame
                  (results (fst (main_loop two_ingredient_service
                                   ingredients initial_globals))))) as H.
  { vm_compute. reflexivity. }
  rewrite (proj1 (proj2 (C9_records_in_processing_order
                           two_ingredient_service)) _ H).
  vm_compute. reflexivity.
Defined.

(** ** Claims on the resolver and on failures of the transport *)

(** C3: when the name lookup of an ingredient gives an empty (false)
    identifier list, the ingredient is passed over: no exception, no
    change of the globals, and the loop goes on with the next ingredient;
    a failed request, a blank or unparseable body and an absent field all
    give the empty list. *)
Theorem C3_empty_lookup_skips_ingredient (o : service) (ing : string) :
  (forall initial rest g,
     initial_rxcui_list o ing = Ok initial ->
     py_truthy initial = false ->
     process_ingredient o ing g = (g, Ok tt)
     /\ main_loop o (ing :: rest) g = main_loop o rest g)
  /\ (lookup_unavailable o ing = true ->
      initial_rxcui_list o ing = Ok (JArr [])).
Proof.
  split.
  - intros initial rest g Hi Ht.
    assert (process_ingredient o ing g = (g, Ok tt)) as E.
    { unfold process_ingredient, bind, lift. rewrite Hi, Ht. reflexivity. }
    split; [exact E|].
    unfold main_loop. simpl. unfold bind. now rewrite E.
  - unfold lookup_unavailable, initial_rxcui_list, safe_get_json.
    destruct (o (NameLookup ing)) as [|status [| |j]]; try reflexivity.
    destruct j as [| | | | |kv]; try discriminate. simpl.
    destruct (lookup "idGroup" kv) as [[| | | | |kv']|];
      try discriminate; simpl; [|reflexivity].
    destruct (lookup "rxnormId" kv'); [discriminate|reflexivity].
Qed.

Lemma C3_witness :
  main_loop failed_lookup_service ["Exenatide"; "Liraglutide"] initial_globals
  = main_loop failed_lookup_service ["Liraglutide"] initial_globals.
Proof.
  apply (proj1 (C3_empty_lookup_skips_ingredient failed_lookup_service
                  "Exenatide") (JArr []) ["Liraglutide"] initial_globals).
  - apply (proj2 (C3_empty_lookup_skips_ingredient failed_lookup_service
                    "Exenatide")).
    reflexivity.
  - reflexivity.
Defined.

(** *** The script sees the service through [safe_get_json] only *)

Lemma bind_ext {A B} (m m' : M A) (k k' : A -> M B) (g : globals) :
  m g = m' g -> (forall a g', k a g' = k' a g') -> bind m k g = bind m' k' g.
Proof.
  intros Hm Hk. unfold bind. rewrite Hm.
  destruct (m' g) as [g' [a|e]]; auto.
Qed.

Lemma for_each_ext {A} (f h : A -> M unit) (l : list A) (g : globals) :
  (forall x g', f x g' = h x g') -> for_each f l g = for_each h l g.
Proof.
  intros H. revert g. induction l as [|x l IH]; intros g; simpl.
  - reflexivity.
  - apply bind_ext; auto.
Qed.

Lemma for_in_ext (v : json) (f h : json -> M unit) (g : globals) :
  (forall x g', f x g' = h x g') -> for_in v f g = for_in v h g.
Proof.
  intros H. unfold for_in. apply bind_ext; [reflexivity|].
  intros l g'. now apply for_each_ext.
Qed.

Section SameDecodedReplies.
Variables o1 o2 : service.
Hypothesis same : forall u, safe_get_json o1 u = safe_get_json o2 u.

Lemma initial_rxcui_list_same (ing : string) :
  initial_rxcui_list o1 ing = initial_rxcui_list o2 ing.
Proof.
  unfold initial_rxcui_list. now rewrite same.
Qed.

Lemma expand_same (initial : json) (g : globals) :
  expand o1 initial g = expand o2 initial g.
Proof.
  rewrite !expand_unfold. apply for_in_ext. intros id g'.
  unfold expand_rxcui. now rewrite same.
Qed.

Lemma fetch_rxcui_same (ing : string) (item : json * json) (g : globals) :
  fetch_rxcui o1 ing item g = fetch_rxcui o2 ing item g.
Proof.
  destruct item as [id desc]. unfold fetch_rxcui, fetch_ndc_list.
  rewrite same. apply bind_ext; [reflexivity|]. intros codes g1.
  apply bind_ext; [reflexivity|]. intros _ g2.
  destruct (py_truthy codes); [|reflexivity].
  apply bind_ext; [reflexivity|]. intros n g3.
  apply bind_ext; [reflexivity|]. intros _ g4.
  apply for_in_ext. intros code g5.
  unfold fetch_code, fetch_ndc_property. now rewrite same.
Qed.

Lemma fetch_all_same (ing : string) (g : globals) :
  fetch_all o1 ing g = fetch_all o2 ing g.
Proof.
  unfold fetch_all. apply bind_ext; [reflexivity|]. intros _ g1.
  apply bind_ext; [|reflexivity].
  apply for_each_ext. intros item g2. apply fetch_rxcui_same.
Qed.

Lemma process_ingredient_same (ing : string) (g : globals) :
  process_ingredient o1 ing g = process_ingredient o2 ing g.
Proof.
  unfold process_ingredient. rewrite initial_rxcui_list_same.
  apply bind_ext; [reflexivity|]. intros initial g1.
  destruct (negb (py_truthy initial)); [reflexivity|].
  apply bind_ext; [reflexivity|]. intros n g2.
  apply bind_ext; [apply expand_same|]. intros _ g3. apply fetch_all_same.
Qed.

Lemma script_same : script o1 = script o2.
Proof.
  unfold script, main_loop.
  rewrite (for_each_ext (process_ingredient o1) (process_ingredient o2));
    [reflexivity|].
  apply process_ingredient_same.
Qed.

End SameDecodedReplies.

Lemma absorbed_decodes_empty (r : reply) (o : service) (u u' : request) :
  absorbed r = true ->
  safe_get_json (with_reply o u r) u'
  = safe_get_json (with_reply o u empty_reply) u'.
Proof.
  intros H. unfold safe_get_json, with_reply.
  destruct (request_eq_dec u' u); [|reflexivity].
  destruct r as [|status [| |j]]; try reflexivity. discriminate.
Qed.

(** C2, as the script has it: at every request, a reply that is a failed
    request, a blank body or a body that does not parse leaves the script
    with the same globals and the same final table as a reply with an
    empty JSON object; the status code of a reply is never looked at, so
    replies with the same body give the same run whatever their status. *)
Theorem C2_absorbed_failure_same_as_empty
  (o : service) (u : request) (r : reply) :
  (absorbed r = true ->
   script (with_reply o u r) = script (with_reply o u empty_reply))
  /\ (forall status status' b,
        script (with_reply o u (Response status b))
        = script (with_reply o u (Response status' b))).
Proof.
  split.
  - intros H. apply script_same. intros u'.
    now apply absorbed_decodes_empty.
  - intros status status' b. apply script_same. intros u'.
    unfold safe_get_json, with_reply.
    now destruct (request_eq_dec u' u).
Qed.

Lemma C2_witness :
  script (with_reply byetta_service (AllRelated (JStr "84108"))
            (Response 503 Malformed))
  = script (with_reply byetta_service (AllRelated (JStr "84108"))
              empty_reply).
Proof.
  apply (proj1 (C2_absorbed_failure_same_as_empty byetta_service
                  (AllRelated (JStr "84108")) (Response 503 Malformed))).
  reflexivity.
Defined.

(** C2 as the specification states it fails for an HTTP error status: a
    reply with status 500 whose body decodes to data is used as data. *)
Lemma C2_counterexample :
  ~ (forall (o : service) (u : request) (r : reply),
       transport_failure r = true ->
       script (with_reply o u r) = script (with_reply o u empty_reply)).
Proof.
  intros H.
  specialize (H no_code_service (NameLookup "Exenatide") error_status_reply
                eq_refl).
  vm_compute in H. discriminate H.
Qed.

(** ** The final table *)

(** C1 fails on the script: with a concept that has no registered code the
    final table holds a row whose product code is null. *)
Theorem C1_final_table_keeps_null_ndc :
  exists df,
    snd (script no_code_service) = Ok df
    /\ exists r, In r (rows df) /\ ndc r = JNull.
Proof.
  eexists. split; [vm_compute; reflexivity|].
  eexists. split; [left; reflexivity|reflexivity].
Qed.

(** When the first ingredient with identifiers retains no concept, line 126
    reads [ndc_list] before any assignment and the script stops. *)
Lemma unbound_ndc_list_stops_script :
  snd (script failed_related_service) = Raise NameError.
Proof.
  vm_compute. reflexivity.
Qed.

(** The end-to-end example of section 8 of the specification. *)
Lemma byetta_example :
  snd (script byetta_service)
  = Ok (DataFrame
          [{| ingredient := "Exenatide"; rxcui := JStr "311036";
              ndc := JStr "00002-1433-01";
              rxcui_description :=
                JStr "exenatide 250 MCG/ML Injectable Solution";
              ndc_description :=
                JStr "exenatide 250 MCG/ML Injectable Solution [Byetta]" |}]).
Proof.
  vm_compute. reflexivity.
Qed.

(** ** No triple twice *)

Lemma map_flat_map {A B C} (h : B -> C) (f : A -> list B) (l : list A) :
  map h (flat_map f l) = flat_map (fun x => map h (f x)) l.
Proof.
  induction l as [|x l IH]; simpl; [reflexivity|].
  now rewrite map_app, IH.
Qed.

(** Lists that are free of repetitions and carry different tags make a
    list free of repetitions. *)
Lemma NoDup_flat_map_keyed {A B K} (key : A -> K) (tag : B -> K)
  (f : A -> list B) (l : list A) :
  NoDup (map key l) ->
  (forall x y, In x l -> In y (f x) -> tag y = key x) ->
  (forall x, In x l -> NoDup (f x)) ->
  NoDup (flat_map f l).
Proof.
  induction l as [|a l IH]; simpl; intros Hk Ht Hn; [constructor|].
  inversion Hk as [|? ? Hnotin Hk']; subst.
  apply NoDup_app.
  - apply Hn. now left.
  - apply IH; auto.
  - intros y Hy1 Hy2. apply Hnotin.
    apply in_flat_map in Hy2. destruct Hy2 as (x & Hx & Hy2).
    rewrite <- (Ht a y (or_introl eq_refl) Hy1), (Ht x y (or_intror Hx) Hy2).
    now apply in_map.
Qed.

Lemma NoDup_map_injective {A B} (f : A -> B) (l : list A) :
  (forall x y, f x = f y -> x = y) -> NoDup l -> NoDup (map f l).
Proof.
  intros Hf. induction 1 as [|x l Hnotin Hl IH]; simpl; constructor; auto.
  intros Hin. apply in_map_iff in Hin. destruct Hin as (y & Hy & Hin).
  apply Hf in Hy. now subst.
Qed.

Lemma expansion_NoDup (o : service) (initial : json) :
  NoDup (map fst (expansion o initial)).
Proof.
  unfold expansion.
  destruct (expansion_invariant (concept_entries o initial))
    as (_ & _ & Hd & Hk).
  apply keys_distinct_NoDup; [exact Hd|].
  intros k v Hin. now apply (Hk k v).
Qed.

Lemma rows_of_rxcui_triple (o : service) (ing : string) (item : json * json)
  (t : string * json * json) :
  In t (map triple (rows_of_rxcui o ing item)) ->
  fst (fst t) = ing /\ snd (fst t) = fst item.
Proof.
  unfold rows_of_rxcui. intros Hin. apply in_map_iff in Hin.
  destruct Hin as (r & <- & Hin).
  destruct (fetch_ndc_list o (fst item)) as [codes|e]; [|contradiction].
  destruct (py_truthy codes).
  - apply in_map_iff in Hin. destruct Hin as (c & <- & _). auto.
  - destruct Hin as [<-|[]]. auto.
Qed.

Lemma rows_of_rxcui_NoDup (o : service) (ing : string) (item : json * json) :
  (forall codes, fetch_ndc_list o (fst item) = Ok codes ->
                 NoDup (iter_or_nil codes)) ->
  NoDup (map triple (rows_of_rxcui o ing item)).
Proof.
  unfold rows_of_rxcui. intros H.
  destruct (fetch_ndc_list o (fst item)) as [codes|e]; [|constructor].
  destruct (py_truthy codes).
  - rewrite map_map. apply NoDup_map_injective; [|now apply H].
    intros c c' E. now inversion E.
  - repeat constructor. intros [].
Qed.

Lemma rows_of_ingredient_triple (o : service) (ing : string)
  (t : string * json * json) :
  In t (map triple (rows_of_ingredient o ing)) -> fst (fst t) = ing.
Proof.
  unfold rows_of_ingredient.
  destruct (initial_rxcui_list o ing) as [initial|e]; [|contradiction].
  destruct (py_truthy initial); [|contradiction].
  rewrite map_flat_map. intros Hin. apply in_flat_map in Hin. destruct Hin as (item & _ & Hin).
  now apply rows_of_rxcui_triple in Hin.
Qed.

Lemma ordered_rows_NoDup (o : service) (ings : list string) :
  NoDup ings -> no_repeated_code o ings ->
  NoDup (map triple (ordered_rows o ings)).
Proof.
  intros Hings Hcodes. unfold ordered_rows. rewrite map_flat_map.
  apply (NoDup_flat_map_keyed (fun ing => ing) (fun t => fst (fst t))).
  - now rewrite map_id.
  - intros ing t _. apply rows_of_ingredient_triple.
  - intros ing Hing.
    pose proof (Hcodes ing) as Hc. unfold rows_of_ingredient.
    destruct (initial_rxcui_list o ing) as [initial|e]; [|constructor].
    destruct (py_truthy initial) eqn:Ht; [|constructor].
    rewrite map_flat_map.
    apply (NoDup_flat_map_keyed fst (fun t => snd (fst t))).
    + apply expansion_NoDup.
    + intros item t _ Hin. now apply rows_of_rxcui_triple in Hin.
    + intros item Hitem. apply rows_of_rxcui_NoDup. intros codes.
      now apply (Hc initial item codes).
Qed.

Lemma ingredients_NoDup : NoDup ingredients.
Proof.
  unfold ingredients.
  repeat (constructor; [simpl; intuition discriminate|]). constructor.
Qed.

Lemma ordered_rows_complete (o : service) (ings : list string)
  (ing : string) (initial : json) (item : json * json) (r : row) :
  In ing ings ->
  initial_rxcui_list o ing = Ok initial ->
  py_truthy initial = true ->
  In item (expansion o initial) ->
  In r (rows_of_rxcui o ing item) ->
  In r (ordered_rows o ings).
Proof.
  intros Hing Hi Ht Hitem Hr. unfold ordered_rows.
  apply in_flat_map. exists ing. split; [exact Hing|].
  unfold rows_of_ingredient. rewrite Hi, Ht.
  apply in_flat_map. exists item. auto.
Qed.

Lemma ordered_rows_observed (o : service) (ings : list string)
  (t : string * json * json) :
  In t (map triple (ordered_rows o ings)) <-> observed o ings t.
Proof.
  split.
  - intros Hin. apply in_map_iff in Hin. destruct Hin as (r & <- & Hr).
    unfold ordered_rows in Hr. apply in_flat_map in Hr.
    destruct Hr as (ing & Hing & Hr). unfold rows_of_ingredient in Hr.
    destruct (initial_rxcui_list o ing) as [initial|e] eqn:Hi;
      [|contradiction].
    destruct (py_truthy initial) eqn:Ht; [|contradiction].
    apply in_flat_map in Hr. destruct Hr as ([id desc] & Hitem & Hr).
    unfold rows_of_rxcui in Hr. cbn [fst snd] in Hr.
    destruct (fetch_ndc_list o id) as [codes|e] eqn:Hc; [|contradiction].
    destruct (py_truthy codes) eqn:Hb.
    + apply in_map_iff in Hr. destruct Hr as (c & <- & Hin).
      split; [exact Hing|]. exists initial, desc, codes. cbn. auto 10.
    + destruct Hr as [<-|[]].
      split; [exact Hing|]. exists initial, desc, codes. cbn. auto 10.
  - destruct t as [[ing id] c]. unfold observed. cbn [fst snd].
    intros (Hing & initial & desc & codes & Hi & Ht & Hitem & Hc & Hcase).
    assert (exists r, In r (rows_of_rxcui o ing (id, desc))
                      /\ triple r = (ing, id, c)) as (r & Hr & <-).
    { unfold rows_of_rxcui. cbn [fst snd]. rewrite Hc.
      destruct Hcase as [(Hb & Hin)|(Hb & ->)]; rewrite Hb.
      - exists (code_row o ing id desc c). split; [now apply in_map|].
        reflexivity.
      - exists (null_row ing id desc). split; [now left | reflexivity]. }
    apply in_map.
    now apply (ordered_rows_complete o ings ing initial (id, desc)).
Qed.

(** C8, as the script has it: when no code list fetched for a retained
    identifier names a code twice, then at every point of the run (the
    records appended so far are the first records of the collection the
    loop leaves) no two records have the same ingredient, identifier and
    code, and the records are the first records of the processing order,
    whose triples are exactly the triples the run comes across: one record
    per such triple up to that point, and all of them when the loop has
    ended without an exception. *)
Theorem C8_no_triple_twice (o : service) :
  no_repeated_code o ingredients ->
  (forall p,
     is_prefix p (results (fst (main_loop o ingredients initial_globals))) ->
     NoDup (map triple p) /\ is_prefix p (ordered_rows o ingredients))
  /\ (forall t,
        In t (map triple (ordered_rows o ingredients))
        <-> observed o ingredients t)
  /\ (snd (main_loop o ingredients initial_globals) = Ok tt ->
      results (fst (main_loop o ingredients initial_globals))
      = ordered_rows o ingredients).
Proof.
  intros Hcodes.
  destruct (main_loop_tracks o ingredients initial_globals)
    as (seen & rest & E & P & R).
  rewrite fold_left_snoc in P.
  change (results initial_globals ++ seen) with seen in P.
  split; [|split].
  - intros p (tail & Hp).
    assert (ordered_rows o ingredients = p ++ (tail ++ rest)) as Ep.
    { now rewrite E, <- P, Hp, <- app_assoc. }
    split; [|now exists (tail ++ rest)].
    pose proof (ordered_rows_NoDup o ingredients ingredients_NoDup Hcodes)
      as H.
    rewrite Ep, map_app in H. now apply NoDup_app_remove_r in H.
  - intros t. apply ordered_rows_observed.
  - intros Hok. rewrite P, E, (R Hok), app_nil_r. reflexivity.
Qed.

Lemma C8_witness :
  NoDup (map triple
           (results (fst (main_loop two_ingredient_service ingredients
                            initial_globals))))
  /\ is_prefix
       (results (fst (main_loop two_ingredient_service ingredients
                        initial_globals)))
       (ordered_rows two_ingredient_service ingredients).
Proof.
  assert (no_repeated_code two_ingredient_service ingredients) as H.
  { intros ing initial item codes Hing Hi Ht Hitem Hc.
    simpl in Hing.
    repeat (destruct Hing as [<-|Hing];
            [vm_compute in Hi; inversion Hi; subst initial;
             try discriminate Ht|]); try contradiction.
    - vm_compute in Hitem. destruct Hitem as [<-|[<-|[]]];
        vm_compute in Hc; inversion Hc; subst codes; simpl.
      + repeat (constructor; [simpl; intuition discriminate|]). constructor.
      + constructor.
    - vm_compute in Hitem. destruct Hitem as [<-|[]].
      vm_compute in Hc. inversion Hc. subst codes. simpl.
      repeat (constructor; [simpl; intuition discriminate|]). constructor. }
  apply (proj1 (C8_no_triple_twice two_ingredient_service H)).
  exists []. now rewrite app_nil_r.
Defined.

(** The run of the witness: five records, three for the first identifier
    of the first ingredient, a null record for its second identifier and
    one for the second ingredient. *)
Lemma two_ingredient_records :
  map triple
    (results (fst (main_loop two_ingredient_service ingredients
                     initial_globals)))
  = [("Exenatide", JStr "311036", JStr "00002-1433-01");
     ("Exenatide", JStr "311036", JStr "00002-1434-01");
     ("Exenatide", JStr "311036", JStr "00002-1435-01");
     ("Exenatide", JStr "847910", JNull);
     ("Liraglutide", JStr "897122", JStr "00169-4060-12")].
Proof.
  vm_compute. reflexivity.
Qed.

(** C8 as the specification states it fails when a code list names a code
    twice: the collection then holds the same triple twice. *)
Lemma C8_counterexample :
  ~ NoDup (map triple
             (results (fst (main_loop repeated_code_service ingredients
                              initial_globals)))).
Proof.
  vm_compute. intros H. inversion H as [|x l Hnotin _]; subst.
  apply Hnotin. left. reflexivity.
Qed.

(** * Further properties of the script *)

(** ** What the parts of the script can raise and what they keep *)

Lemma py_get_raises (v : json) (k : string) (dflt : json) (e : exn) :
  py_get v k dflt = Raise e -> e = AttributeError.
Proof.
  destruct v; simpl; try congruence.
  destruct (lookup k kv); discriminate.
Qed.

Lemma py_iter_raises (v : json) (e : exn) :
  py_iter v = Raise e -> e = TypeError.
Proof.
  destruct v; simpl; congruence.
Qed.

Lemma py_len_raises (v : json) (e : exn) :
  py_len v = Raise e -> e = TypeError.
Proof.
  destruct v; simpl; congruence.
Qed.

Lemma describe_raises (p : json) (e : exn) :
  describe p = Raise e -> e = AttributeError.
Proof.
  destruct p as [| | | |[|first l]|kv]; try discriminate.
  - exact (py_get_raises first "name" JNull e).
  - exact (py_get_raises (JObj kv) "name" JNull e).
Qed.

Lemma keeps_ret {A} (I : globals -> Prop) (P : exn -> Prop) (a : A) :
  keeps I P (ret a).
Proof.
  intros g Hg. simpl. split; [exact Hg | discriminate].
Qed.

Lemma keeps_lift {A} (I : globals -> Prop) (P : exn -> Prop) (r : res A) :
  (forall e, r = Raise e -> P e) -> keeps I P (lift r).
Proof.
  intros H g Hg. simpl. auto.
Qed.

Lemma keeps_bind {A B} (I : globals -> Prop) (P : exn -> Prop)
  (m : M A) (k : A -> M B) :
  keeps I P m -> (forall a, keeps I P (k a)) -> keeps I P (bind m k).
Proof.
  intros Hm Hk g Hg. destruct (Hm g Hg) as [Hi He]. unfold bind.
  destruct (m g) as [g1 [a|e]]; simpl in *.
  - apply Hk. exact Hi.
  - split; [exact Hi|]. intros e' [= <-]. now apply He.
Qed.

Lemma keeps_for_each {A} (I : globals -> Prop) (P : exn -> Prop)
  (body : A -> M unit) (l : list A) :
  (forall x, keeps I P (body x)) -> keeps I P (for_each body l).
Proof.
  intros H. induction l as [|x l IH]; simpl.
  - apply keeps_ret.
  - apply keeps_bind; auto.
Qed.

Lemma keeps_for_in (I : globals -> Prop) (P : exn -> Prop)
  (v : json) (body : json -> M unit) :
  P TypeError -> (forall x, keeps I P (body x)) -> keeps I P (for_in v body).
Proof.
  intros HT H. unfold for_in. apply keeps_bind.
  - apply keeps_lift. intros e He. now rewrite (py_iter_raises _ _ He).
  - intros l. now apply keeps_for_each.
Qed.

Lemma expand_entry_eq (cp : json) (g : globals) :
  expand_entry cp g
  = match cp with
    | JObj _ =>
        if unhashable_entry cp then (g, Raise TypeError)
        else (with_dict g (insert_entry (related_rxcui_dict g) cp), Ok tt)
    | _ => (g, Raise AttributeError)
    end.
Proof.
  destruct cp as [| | | | |kv]; try reflexivity.
  unfold expand_entry, unhashable_entry, insert_entry, accepted, bind, lift.
  rewrite !py_get_field.
  destruct (py_in_strs (field "tty" (JObj kv)) drug_product_term_types);
    simpl; [|now rewrite with_dict_same].
  destruct (py_truthy (field "rxcui" (JObj kv)));
    simpl; [|now rewrite with_dict_same].
  unfold dict_contains.
  destruct (hashable (field "rxcui" (JObj kv))); simpl; [|reflexivity].
  destruct (has_key (related_rxcui_dict g) (field "rxcui" (JObj kv)));
    simpl; [now rewrite with_dict_same | reflexivity].
Qed.

Section Keeps.
Variable I : globals -> Prop.
Variable P : exn -> Prop.
Hypothesis P_attribute : P AttributeError.
Hypothesis P_type : P TypeError.
Hypothesis I_dict : forall d g, I g -> I (with_dict g d).
Hypothesis I_append : forall r g, I g -> I (fst (results_append r g)).
Hypothesis I_ndc_list : forall v g, I g -> I (fst (set_ndc_list v g)).
Hypothesis I_ndc_count : forall n g, I g -> I (fst (add_total_ndc_count n g)).

Lemma keeps_py_get {A} (v : json) (k : string) (dflt : json)
  (body : json -> M A) :
  (forall x, keeps I P (body x)) ->
  keeps I P (bind (lift (py_get v k dflt)) body).
Proof.
  intros H. apply keeps_bind; [|exact H].
  apply keeps_lift. intros e He. now rewrite (py_get_raises _ _ _ _ He).
Qed.

Lemma keeps_expand_entry (cp : json) : keeps I P (expand_entry cp).
Proof.
  intros g Hg. rewrite expand_entry_eq.
  destruct cp; simpl; try (split; [exact Hg | now intros e [= <-]]).
  destruct (unhashable_entry (JObj kv)); simpl; split;
    try exact Hg; try (now intros e [= <-]); try discriminate.
  now apply I_dict.
Qed.

Lemma keeps_expand_rxcui (o : service) (id : json) :
  keeps I P (expand_rxcui o id).
Proof.
  unfold expand_rxcui. apply keeps_py_get. intros g.
  apply keeps_py_get. intros groups.
  apply keeps_for_in; [exact P_type|]. intros group. unfold expand_group.
  apply keeps_py_get. intros cps.
  apply keeps_for_in; [exact P_type|]. apply keeps_expand_entry.
Qed.

Lemma keeps_expand (o : service) (initial : json) :
  keeps I P (expand o initial).
Proof.
  unfold expand. apply keeps_bind.
  - intros g Hg. split; [now apply (I_dict [] g) | discriminate].
  - intros _. apply keeps_for_in; [exact P_type|]. apply keeps_expand_rxcui.
Qed.

Lemma keeps_fetch_code (o : service) (ing : string) (id desc code : json) :
  keeps I P (fetch_code o ing id desc code).
Proof.
  unfold fetch_code. apply keeps_bind.
  - apply keeps_lift. unfold fetch_ndc_property. intros e He.
    destruct (py_get _ "ndcPropertyGroup" _) as [g|e'] eqn:E.
    + now rewrite (py_get_raises _ _ _ _ He).
    + inversion He. subst. now rewrite (py_get_raises _ _ _ _ E).
  - intros p. apply keeps_bind.
    + apply keeps_lift. intros e He. now rewrite (describe_raises _ _ He).
    + intros d g Hg. split; [now apply I_append | discriminate].
Qed.

Lemma keeps_fetch_rxcui (o : service) (ing : string) (item : json * json) :
  keeps I P (fetch_rxcui o ing item).
Proof.
  destruct item as [id desc]. unfold fetch_rxcui. apply keeps_bind.
  - apply keeps_lift. unfold fetch_ndc_list. intros e He.
    destruct (py_get _ "ndcGroup" _) as [g|e1] eqn:E1;
      [|inversion He; subst; now rewrite (py_get_raises _ _ _ _ E1)].
    destruct (py_get g "ndcList" _) as [l|e2] eqn:E2;
      [|inversion He; subst; now rewrite (py_get_raises _ _ _ _ E2)].
    now rewrite (py_get_raises _ _ _ _ He).
  - intros codes. apply keeps_bind.
    + intros g Hg. split; [now apply I_ndc_list | discriminate].
    + intros _. destruct (py_truthy codes).
      * apply keeps_bind.
        -- apply keeps_lift. intros e He. now rewrite (py_len_raises _ _ He).
        -- intros n. apply keeps_bind.
           ++ intros g Hg. split; [now apply I_ndc_count | discriminate].
           ++ intros _. apply keeps_for_in; [exact P_type|].
              intros code. apply keeps_fetch_code.
      * intros g Hg. split; [now apply I_append | discriminate].
Qed.

End Keeps.

Section KeepsLoop.
Variable I : globals -> Prop.
Variable P : exn -> Prop.
Hypothesis P_attribute : P AttributeError.
Hypothesis P_type : P TypeError.
Hypothesis I_dict : forall d g, I g -> I (with_dict g d).
Hypothesis I_append : forall r g, I g -> I (fst (results_append r g)).
Hypothesis I_ndc_list : forall v g, I g -> I (fst (set_ndc_list v g)).
Hypothesis I_ndc_count : forall n g, I g -> I (fst (add_total_ndc_count n g)).
Hypothesis I_rxcui_count :
  forall n g, I g -> I (fst (add_total_rxcui_count n g)).
Hypothesis I_temp_df : forall g, I g -> I (fst (set_temp_df g)).
Hypothesis P_report : forall g e, I g -> snd (report_ndc_list g) = Raise e -> P e.

Lemma report_ndc_list_same_globals (g : globals) :
  fst (report_ndc_list g) = g.
Proof.
  unfold report_ndc_list. destruct (ndc_list g) as [v|]; [|reflexivity].
  destruct (py_truthy v); [|reflexivity]. now destruct (py_len v).
Qed.

Lemma keeps_fetch_all (o : service) (ing : string) :
  keeps I P (fetch_all o ing).
Proof.
  intros g Hg.
  change (fetch_all o ing g)
    with ((add_total_rxcui_count (List.length (related_rxcui_dict g)) ;;
           for_each (fetch_rxcui o ing) (related_rxcui_dict g) ;;
           report_ndc_list ;;
           set_temp_df) g).
  revert g Hg.
  assert (forall d n,
            keeps I P (add_total_rxcui_count n ;;
                       for_each (fetch_rxcui o ing) d ;;
                       report_ndc_list ;; set_temp_df)) as H.
  { intros d n. apply keeps_bind.
    - intros g Hg. split; [now apply I_rxcui_count | discriminate].
    - intros _. apply keeps_bind.
      + apply keeps_for_each. intros item.
        now apply keeps_fetch_rxcui.
      + intros _. apply keeps_bind.
        * intros g Hg. rewrite report_ndc_list_same_globals.
          split; [exact Hg | intros e; now apply P_report].
        * intros _ g Hg. split; [now apply I_temp_df | discriminate]. }
  intros g Hg. now apply H.
Qed.

Lemma keeps_process_ingredient (o : service) (ing : string) :
  keeps I P (process_ingredient o ing).
Proof.
  unfold process_ingredient. apply keeps_bind.
  - apply keeps_lift. unfold initial_rxcui_list. intros e He.
    destruct (py_get _ "idGroup" _) as [g|e1] eqn:E1;
      [|inversion He; subst; now rewrite (py_get_raises _ _ _ _ E1)].
    now rewrite (py_get_raises _ _ _ _ He).
  - intros initial. destruct (negb (py_truthy initial)).
    + apply keeps_ret.
    + apply keeps_bind.
      * apply keeps_lift. intros e He. now rewrite (py_len_raises _ _ He).
      * intros n. apply keeps_bind.
        -- now apply keeps_expand.
        -- intros _. apply keeps_fetch_all.
Qed.

Lemma keeps_main_loop (o : service) (ings : list string) :
  keeps I P (main_loop o ings).
Proof.
  apply keeps_for_each. intros ing. apply keeps_process_ingredient.
Qed.

End KeepsLoop.

(** ** Errors in Step 2 *)

(** The outcome of one concept property entry: a value that is no dict
    stops the script with [AttributeError]; an entry with an accepted term
    type whose identifier is a non-empty list or dict stops it with
    [TypeError]; every other entry is looked at to the end and leaves the
    dict that [insert_entry] gives.  The globals are untouched when an
    exception is raised. *)
Theorem expand_entry_outcome (cp : json) (g : globals) :
  ((forall kv, cp <> JObj kv) ->
   expand_entry cp g = (g, Raise AttributeError))
  /\ (unhashable_entry cp = true ->
      expand_entry cp g = (g, Raise TypeError))
  /\ (forall kv, cp = JObj kv -> unhashable_entry cp = false ->
      expand_entry cp g
      = ({| results := results g;
            total_rxcui_count := total_rxcui_count g;
            total_ndc_count := total_ndc_count g;
            related_rxcui_dict := insert_entry (related_rxcui_dict g) cp;
            ndc_list := ndc_list g;
            temp_df := temp_df g |}, Ok tt)).
Proof.
  rewrite expand_entry_eq. split; [|split].
  - intros H. destruct cp; try reflexivity. now destruct (H kv).
  - intros H. destruct cp; try discriminate. now rewrite H.
  - intros kv -> H. now rewrite H.
Qed.

Lemma expand_entry_outcome_witness :
  expand_entry
    (JObj [("rxcui", JArr [JStr "311036"]); ("name", JStr "in a list");
           ("tty", JStr "SCD")]) initial_globals
  = (initial_globals, Raise TypeError).
Proof.
  apply (proj1 (proj2 (expand_entry_outcome _ initial_globals))).
  reflexivity.
Defined.

(** ** Frames of the two loops *)

Lemma expand_frame (o : service) (initial : json) (g : globals) :
  results (fst (expand o initial g)) = results g
  /\ total_rxcui_count (fst (expand o initial g)) = total_rxcui_count g
  /\ total_ndc_count (fst (expand o initial g)) = total_ndc_count g
  /\ ndc_list (fst (expand o initial g)) = ndc_list g
  /\ temp_df (fst (expand o initial g)) = temp_df g.
Proof.
  destruct (expand_spec o initial g) as (seen & rest & _ & E & _).
  rewrite E. simpl. auto.
Qed.

(** Relation expansion changes no global but the dict, whether it ends
    normally or raises: the globals it leaves are the globals it started
    from with another dict, so the collected records, the two counters,
    [ndc_list] and [temp_df] are as before. *)
Theorem expand_changes_dict_only (o : service) (initial : json) (g : globals) :
  fst (expand o initial g)
  = {| results := results g;
       total_rxcui_count := total_rxcui_count g;
       total_ndc_count := total_ndc_count g;
       related_rxcui_dict := related_rxcui_dict (fst (expand o initial g));
       ndc_list := ndc_list g;
       temp_df := temp_df g |}.
Proof.
  destruct (expand_spec o initial g) as (seen & rest & _ & E & _).
  rewrite E. reflexivity.
Qed.

(** Code fetching never changes the dict whose items it walks over,
    neither for one identifier nor for all of them, whether it ends
    normally or raises. *)
Theorem code_fetching_keeps_dict (o : service) (ing : string) (g : globals) :
  (forall item,
     related_rxcui_dict (fst (fetch_rxcui o ing item g))
     = related_rxcui_dict g)
  /\ related_rxcui_dict (fst (fetch_all o ing g)) = related_rxcui_dict g.
Proof.
  split.
  - intros item.
    apply (keeps_fetch_rxcui
             (fun g' => related_rxcui_dict g' = related_rxcui_dict g)
             (fun _ => True)); auto.
  - apply (keeps_fetch_all
             (fun g' => related_rxcui_dict g' = related_rxcui_dict g)
             (fun _ => True)); auto.
Qed.

(** ** The unbound name of line 126 *)

(** Once [ndc_list] is bound it stays bound, and the loop over the
    ingredients never raises [NameError]; a code fetch for one identifier
    that ends normally leaves it bound. *)
Theorem bound_ndc_list_no_name_error (o : service) :
  (forall ings g,
     ndc_list g <> None ->
     ndc_list (fst (main_loop o ings g)) <> None
     /\ snd (main_loop o ings g) <> Raise NameError)
  /\ (forall ing item g,
        snd (fetch_rxcui o ing item g) = Ok tt ->
        ndc_list (fst (fetch_rxcui o ing item g)) <> None).
Proof.
  split.
  - intros ings g Hg.
    destruct (keeps_main_loop (fun g' => ndc_list g' <> None)
                (fun e => e <> NameError)) with (o := o) (ings := ings)
                (g := g) as [Hi He]; try discriminate; auto.
    + intros g' e Hb. unfold report_ndc_list.
      destruct (ndc_list g') as [v|]; [|contradiction].
      destruct (py_truthy v); [|discriminate].
      destruct (py_len v) eqn:E; [discriminate|].
      intros [= <-]. now rewrite (py_len_raises _ _ E).
    + split; [exact Hi|]. intros H. now apply (He NameError).
  - intros ing [id desc] g. unfold fetch_rxcui, bind, lift.
    destruct (fetch_ndc_list o id) as [codes|e]; simpl; [|discriminate].
    intros _.
    assert (keeps (fun g' => ndc_list g' <> None) (fun _ => True)
              (if py_truthy codes
               then n <- lift (py_len codes) ;;
                    add_total_ndc_count n ;;
                    for_in codes (fetch_code o ing id desc)
               else results_append
                      {| ingredient := ing; rxcui := id; ndc := JNull;
                         rxcui_description := desc;
                         ndc_description := JNull |})) as H.
    { destruct (py_truthy codes).
      - apply keeps_bind; [now apply keeps_lift|]. intros n.
        apply keeps_bind; [intros g' Hg'; split; [exact Hg' | auto]|].
        intros _. apply keeps_for_in; [exact I|]. intros code.
        apply keeps_fetch_code; auto.
      - intros g' Hg'. split; [exact Hg' | auto]. }
    apply H. discriminate.
Qed.

Lemma bound_ndc_list_witness :
  snd (main_loop failed_related_service ingredients
         (fst (set_ndc_list (JArr []) initial_globals)))
  <> Raise NameError.
Proof.
  apply (proj1 (bound_ndc_list_no_name_error failed_related_service)
           ingredients (fst (set_ndc_list (JArr []) initial_globals))).
  simpl. discriminate.
Defined.

Lemma expand_ok_iterable (o : service) (initial : json) (g : globals) :
  snd (expand o initial g) = Ok tt -> exists l, py_iter initial = Ok l.
Proof.
  rewrite expand_unfold. unfold for_in, bind, lift.
  destruct (py_iter initial) as [l|e]; simpl; [eauto | discriminate].
Qed.

(** While [ndc_list] is unbound, an ingredient whose lookup gives
    identifiers and whose expansion ends normally with an empty dict stops
    the script with [NameError] at line 126: no record is appended and no
    snapshot is taken. *)
Theorem no_retained_concept_raises_name_error
  (o : service) (ing : string) (initial : json) (g : globals) :
  ndc_list g = None ->
  initial_rxcui_list o ing = Ok initial ->
  py_truthy initial = true ->
  snd (expand o initial g) = Ok tt ->
  related_rxcui_dict (fst (expand o initial g)) = [] ->
  snd (process_ingredient o ing g) = Raise NameError
  /\ results (fst (process_ingredient o ing g)) = results g
  /\ temp_df (fst (process_ingredient o ing g)) = temp_df g
  /\ forall rest, snd (main_loop o (ing :: rest) g) = Raise NameError.
Proof.
  intros Hn Hi Ht Hok Hd.
  destruct (expand_ok_iterable o initial g Hok) as [l Hl].
  destruct (expand_frame o initial g) as (Hr & Hrx & Hndc & Hnl & Htd).
  assert (exists g2,
            process_ingredient o ing g = (g2, Raise NameError)
            /\ results g2 = results g /\ temp_df g2 = temp_df g)
    as (g2 & E & Hr2 & Ht2).
  { unfold process_ingredient, bind, lift.
    rewrite Hi. simpl. rewrite Ht, (py_len_iter _ _ Hl). simpl.
    destruct (expand o initial g) as [g1 [[]|e]] eqn:Ee;
      simpl in *; [|discriminate].
    unfold fetch_all, bind. rewrite Hd. simpl.
    unfold report_ndc_list. simpl. rewrite Hnl, Hn.
    eexists. split; [reflexivity|]. simpl. auto. }
  rewrite E. simpl. repeat split; auto.
  intros rest. unfold main_loop. simpl. unfold bind. now rewrite E.
Qed.

Lemma no_retained_concept_witness :
  snd (process_ingredient failed_related_service "Exenatide" initial_globals)
  = Raise NameError.
Proof.
  apply (no_retained_concept_raises_name_error failed_related_service
           "Exenatide" (JArr [JStr "84108"]) initial_globals);
    reflexivity.
Defined.

(** ** Errors and outage in Step 1 *)


Lemma lookup_unavailable_empty (o : service) (ing : string) :
  lookup_unavailable o ing = true -> initial_rxcui_list o ing = Ok (JArr []).
Proof.
  unfold lookup_unavailable, initial_rxcui_list, safe_get_json.
  destruct (o (NameLookup ing)) as [|status [| |j]]; try reflexivity.
  destruct j as [| | | | |kv]; try discriminate. simpl.
  destruct (lookup "idGroup" kv) as [[| | | | |kv']|];
    try discriminate; simpl; [|reflexivity].
  destruct (lookup "rxnormId" kv'); [discriminate|reflexivity].
Qed.

Lemma main_loop_all_skipped (o : service) (ings : list string) (g : globals) :
  (forall ing, In ing ings -> lookup_unavailable o ing = true) ->
  main_loop o ings g = (g, Ok tt).
Proof.
  unfold main_loop. induction ings as [|ing ings IH]; intros H; simpl.
  - reflexivity.
  - unfold bind, process_ingredient at 1, lift.
    rewrite (lookup_unavailable_empty o ing) by (apply H; now left).
    simpl. apply IH. intros x Hx. apply H. now right.
Qed.

(** When no name lookup gives data (every request fails, or every body is
    blank, unparseable or without the identifier field), the script ends
    normally: the globals are as at the start and the final table is the
    empty table without columns. *)
Theorem outage_gives_empty_table (o : service) :
  (forall ing, In ing ingredients -> lookup_unavailable o ing = true) ->
  script o = (initial_globals, Ok {| columns := []; rows := [] |}).
Proof.
  intros H. unfold script.
  now rewrite (main_loop_all_skipped o ingredients initial_globals H).
Qed.

Lemma outage_witness :
  script outage_service
  = (initial_globals, Ok {| columns := []; rows := [] |}).
Proof.
  apply (outage_gives_empty_table outage_service).
  intros ing _. reflexivity.
Defined.



(** ** Errors in Step 3 *)

Lemma fetch_code_eq
  (o : service) (ing : string) (id desc code : json) (g : globals) :
  fetch_code o ing id desc code g
  = if props_readable o code
    then results_append (code_row o ing id desc code) g
    else (g, Raise AttributeError).
Proof.
  destruct (props_readable o code) eqn:E.
  - now apply fetch_code_ok.
  - now apply fetch_code_unreadable.
Qed.

Lemma props_readable_body (o : service) (code : json) (status : Z)
  (j : json) :
  o (NdcProperties code) = Response status (Json j) ->
  props_readable o code = props_body_readable j.
Proof.
  intros H. unfold props_readable, safe_get_json. rewrite H. reflexivity.
Qed.

(** For a product code whose property reply decodes to a value: when the
    value has a shape that can be read, exactly one record is appended;
    when it has another shape, [AttributeError] is raised and the globals
    are as they were.  A property request that failed, or whose body is
    blank or unparseable, gives the record with a null description. *)
Theorem fetch_code_outcome
  (o : service) (ing : string) (id desc code : json) (g : globals) :
  (forall status j,
     o (NdcProperties code) = Response status (Json j) ->
     (props_body_readable j = true ->
      fetch_code o ing id desc code g
      = results_append
          {| ingredient := ing; rxcui := id; ndc := code;
             rxcui_description := desc;
             ndc_description := payload_name (payload o code) |} g)
     /\ (props_body_readable j = false ->
         fetch_code o ing id desc code g = (g, Raise AttributeError)))
  /\ (absorbed (o (NdcProperties code)) = true ->
      fetch_code o ing id desc code g
      = results_append
          {| ingredient := ing; rxcui := id; ndc := code;
             rxcui_description := desc; ndc_description := JNull |} g).
Proof.
  split.
  - intros status j Hr. rewrite <- (props_readable_body o code status j Hr).
    split; intros H.
    + now apply fetch_code_ok.
    + now apply fetch_code_unreadable.
  - intros Ha.
    assert (props_readable o code = true
            /\ payload_name (payload o code) = JNull) as [Hr Hn].
    { unfold props_readable, payload, fetch_ndc_property, safe_get_json.
      destruct (o (NdcProperties code)) as [|status [| |j]];
        try discriminate; auto. }
    rewrite (fetch_code_ok o ing id desc code g Hr).
    unfold code_row. now rewrite Hn.
Qed.

Lemma fetch_code_outcome_witness :
  fetch_code null_group_service "Exenatide" (JStr "311036") JNull
    (JStr "00002-1433-01") initial_globals
  = (initial_globals, Raise AttributeError).
Proof.
  apply (proj2 (proj1 (fetch_code_outcome null_group_service "Exenatide"
                         (JStr "311036") JNull (JStr "00002-1433-01")
                         initial_globals)
                  200%Z (JObj [("ndcPropertyGroup", JNull)]) eq_refl)).
  reflexivity.
Defined.

(** ** Runs that end normally *)

Lemma bind_ok_inv {A B} (m : M A) (k : A -> M B) (g g' : globals) (b : B) :
  bind m k g = (g', Ok b) ->
  exists a g1, m g = (g1, Ok a) /\ k a g1 = (g', Ok b).
Proof.
  unfold bind. destruct (m g) as [g1 [a|e]]; [eauto | discriminate].
Qed.

Lemma for_each_ok_inv {A} (body : A -> M unit) (x : A) (l : list A)
  (g g' : globals) :
  for_each body (x :: l) g = (g', Ok tt) ->
  exists g1, body x g = (g1, Ok tt) /\ for_each body l g1 = (g', Ok tt).
Proof.
  simpl. intros H. apply bind_ok_inv in H.
  destruct H as ([] & g1 & H1 & H2). eauto.
Qed.

Lemma for_each_app {A} (body : A -> M unit) (l1 l2 : list A) (g : globals) :
  for_each body (l1 ++ l2) g
  = (for_each body l1 ;; for_each body l2) g.
Proof.
  revert g. induction l1 as [|x l1 IH]; intros g; simpl.
  - reflexivity.
  - unfold bind. destruct (body x g) as [g1 [[]|e]]; [|reflexivity].
    rewrite IH. reflexivity.
Qed.

Lemma grew_refl (g : globals) : grew g g 0 0 0.
Proof.
  unfold grew. lia.
Qed.

Lemma grew_trans (g1 g2 g3 : globals) (a b c a' b' c' : nat) :
  grew g1 g2 a b c -> grew g2 g3 a' b' c' ->
  grew g1 g3 (a + a') (b + b') (c + c').
Proof.
  unfold grew. lia.
Qed.

Lemma truthy_iter_length (v : json) (l : list json) :
  py_truthy v = true -> py_iter v = Ok l -> 1 <= List.length l.
Proof.
  destruct v as [| | |s|l0|kv]; simpl; try discriminate.
  - destruct s; [discriminate|]. intros _ [= <-]. simpl. lia.
  - destruct l0; [discriminate|]. intros _ [= <-]. simpl. lia.
  - destruct kv; [discriminate|]. intros _ [= <-]. simpl. lia.
Qed.

Lemma fetch_code_grew (o : service) (ing : string) (id desc code : json)
  (g g' : globals) :
  fetch_code o ing id desc code g = (g', Ok tt) -> grew g g' 0 0 1.
Proof.
  rewrite fetch_code_eq. destruct (props_readable o code);
    [|discriminate].
  intros [= <-]. unfold grew. simpl. rewrite length_app. simpl. lia.
Qed.

Lemma for_each_fetch_code_grew (o : service) (ing : string) (id desc : json)
  (l : list json) (g g' : globals) :
  for_each (fetch_code o ing id desc) l g = (g', Ok tt) ->
  grew g g' 0 0 (List.length l).
Proof.
  revert g. induction l as [|c l IH]; intros g H.
  - inversion H. subst. apply grew_refl.
  - apply for_each_ok_inv in H. destruct H as (g1 & H1 & H2).
    apply fetch_code_grew in H1. apply IH in H2.
    apply (grew_trans _ _ _ _ _ _ _ _ _ H1 H2).
Qed.

Lemma fetch_rxcui_grew (o : service) (ing : string) (item : json * json)
  (g g' : globals) :
  fetch_rxcui o ing item g = (g', Ok tt) ->
  exists n_ndc n_rec,
    grew g g' 0 n_ndc n_rec
    /\ n_ndc <= n_rec /\ 1 <= n_rec /\ n_rec <= 1 + n_ndc.
Proof.
  destruct item as [id desc]. unfold fetch_rxcui, bind, lift.
  destruct (fetch_ndc_list o id) as [codes|e]; [|discriminate]. simpl.
  destruct (py_truthy codes) eqn:Ht.
  - destruct (py_len codes) as [n|e] eqn:Hn; [|discriminate]. simpl.
    unfold for_in, bind, lift.
    destruct (py_iter codes) as [l|e] eqn:Hl; [|discriminate].
    rewrite (py_len_iter _ _ Hl) in Hn. inversion Hn. subst n.
    pose proof (truthy_iter_length _ _ Ht Hl) as Hlen.
    intros H. apply for_each_fetch_code_grew in H.
    exists (List.length l), (List.length l).
    unfold grew in *. simpl in H. repeat split; lia.
  - intros [= <-]. exists 0, 1. unfold grew. simpl.
    rewrite length_app. simpl. repeat split; lia.
Qed.

Lemma for_each_fetch_rxcui_grew (o : service) (ing : string) (d : pydict)
  (g g' : globals) :
  for_each (fetch_rxcui o ing) d g = (g', Ok tt) ->
  exists n_ndc n_rec,
    grew g g' 0 n_ndc n_rec
    /\ n_ndc <= n_rec /\ List.length d <= n_rec
    /\ n_rec <= List.length d + n_ndc.
Proof.
  revert g. induction d as [|item d IH]; intros g H.
  - inversion H. subst. exists 0, 0.
    split; [apply grew_refl | simpl; lia].
  - apply for_each_ok_inv in H. destruct H as (g1 & H1 & H2).
    apply fetch_rxcui_grew in H1. destruct H1 as (b & c & G1 & ? & ? & ?).
    apply IH in H2. destruct H2 as (b' & c' & G2 & ? & ? & ?).
    exists (b + b'), (c + c').
    split; [apply (grew_trans _ _ _ _ _ _ _ _ _ G1 G2) | simpl; lia].
Qed.

Lemma accounted_refl (g : globals) : accounted g g.
Proof.
  exists 0, 0, 0. repeat split; try lia.
Qed.

Lemma accounted_trans (g1 g2 g3 : globals) :
  accounted g1 g2 -> accounted g2 g3 -> accounted g1 g3.
Proof.
  intros (a & b & c & G1 & ? & ? & ?) (a' & b' & c' & G2 & ? & ? & ?).
  exists (a + a'), (b + b'), (c + c'). repeat split; try lia.
  all: unfold grew in *; lia.
Qed.

Lemma fetch_all_accounted (o : service) (ing : string) (g g' : globals) :
  fetch_all o ing g = (g', Ok tt) -> accounted g g'.
Proof.
  change (fetch_all o ing g)
    with ((add_total_rxcui_count (List.length (related_rxcui_dict g)) ;;
           for_each (fetch_rxcui o ing) (related_rxcui_dict g) ;;
           report_ndc_list ;;
           set_temp_df) g).
  intros H. apply bind_ok_inv in H. destruct H as ([] & g1 & H1 & H).
  apply bind_ok_inv in H. destruct H as ([] & g2 & H2 & H).
  apply bind_ok_inv in H. destruct H as ([] & g3 & H3 & H4).
  apply for_each_fetch_rxcui_grew in H2.
  destruct H2 as (b & c & G & ? & ? & ?).
  pose proof (report_ndc_list_same_globals g2) as E3.
  rewrite H3 in E3. simpl in E3. subst g3.
  inversion H1. subst g1. inversion H4. subst g'.
  exists (List.length (related_rxcui_dict g)), b, c.
  unfold grew in *. simpl in *. repeat split; lia.
Qed.

Lemma process_ingredient_ok_inv (o : service) (ing : string) (g g' : globals) :
  process_ingredient o ing g = (g', Ok tt) ->
  g' = g
  \/ exists initial g1,
       expand o initial g = (g1, Ok tt) /\ fetch_all o ing g1 = (g', Ok tt).
Proof.
  unfold process_ingredient. intros H.
  apply bind_ok_inv in H. destruct H as (initial & g0 & H0 & H).
  inversion H0. subst g0.
  destruct (negb (py_truthy initial)).
  - left. now inversion H.
  - right. apply bind_ok_inv in H. destruct H as (n & g0 & H1 & H).
    inversion H1. subst g0.
    apply bind_ok_inv in H. destruct H as ([] & g1 & Hexp & Hfetch). eauto.
Qed.

Lemma process_ingredient_accounted (o : service) (ing : string)
  (g g' : globals) :
  process_ingredient o ing g = (g', Ok tt) -> accounted g g'.
Proof.
  intros H. apply process_ingredient_ok_inv in H.
  destruct H as [->|(initial & g1 & He & Hf)]; [apply accounted_refl|].
  apply fetch_all_accounted in Hf.
  destruct (expand_frame o initial g) as (Hr & Hrx & Hndc & _).
  rewrite He in Hr, Hrx, Hndc. simpl in Hr, Hrx, Hndc.
  destruct Hf as (a & b & c & G & ? & ? & ?).
  exists a, b, c. unfold grew in *. rewrite <- Hr, <- Hrx, <- Hndc.
  repeat split; lia.
Qed.

(** When the loop over the ingredients ends normally, the counters and the
    collection agree: the loop has appended at least one record per
    identifier counted in [total_rxcui_count], at least one per code
    counted in [total_ndc_count], and no more records than the two counts
    together. *)
Theorem counters_account_for_records
  (o : service) (ings : list string) (g g' : globals) :
  main_loop o ings g = (g', Ok tt) ->
  exists n_rx n_ndc n_rec,
    total_rxcui_count g' = total_rxcui_count g + n_rx
    /\ total_ndc_count g' = total_ndc_count g + n_ndc
    /\ List.length (results g') = List.length (results g) + n_rec
    /\ n_rx <= n_rec /\ n_ndc <= n_rec /\ n_rec <= n_rx + n_ndc.
Proof.
  intros H.
  assert (accounted g g') as (a & b & c & (G1 & G2 & G3) & ? & ? & ?).
  { revert g H. unfold main_loop.
    induction ings as [|ing ings IH]; intros g H.
    - inversion H. subst. apply accounted_refl.
    - apply for_each_ok_inv in H. destruct H as (g1 & H1 & H2).
      apply accounted_trans with g1.
      + now apply process_ingredient_accounted in H1.
      + now apply IH. }
  exists a, b, c. auto 10.
Qed.

Lemma counters_witness :
  exists n_rx n_ndc n_rec,
    total_rxcui_count
      (fst (main_loop byetta_service ingredients initial_globals))
    = total_rxcui_count initial_globals + n_rx
    /\ total_ndc_count
         (fst (main_loop byetta_service ingredients initial_globals))
       = total_ndc_count initial_globals + n_ndc
    /\ List.length
         (results (fst (main_loop byetta_service ingredients initial_globals)))
       = List.length (results initial_globals) + n_rec
    /\ n_rx <= n_rec /\ n_ndc <= n_rec /\ n_rec <= n_rx + n_ndc.
Proof.
  apply (counters_account_for_records byetta_service ingredients
           initial_globals
           (fst (main_loop byetta_service ingredients initial_globals))).
  reflexivity.
Defined.

Lemma fetch_all_snapshot (o : service) (ing : string) (g g' : globals) :
  fetch_all o ing g = (g', Ok tt) ->
  temp_df g' = Some (DataFrame (results g')).
Proof.
  change (fetch_all o ing g)
    with ((add_total_rxcui_count (List.length (related_rxcui_dict g)) ;;
           for_each (fetch_rxcui o ing) (related_rxcui_dict g) ;;
           report_ndc_list ;;
           set_temp_df) g).
  intros H. apply bind_ok_inv in H. destruct H as ([] & g1 & _ & H).
  apply bind_ok_inv in H. destruct H as ([] & g2 & _ & H).
  apply bind_ok_inv in H. destruct H as ([] & g3 & _ & H).
  inversion H. reflexivity.
Qed.

Lemma main_loop_snapshot (o : service) (ings : list string) (g g' : globals) :
  main_loop o ings g = (g', Ok tt) ->
  g' = g \/ temp_df g' = Some (DataFrame (results g')).
Proof.
  unfold main_loop. revert g. induction ings as [|ing ings IH]; intros g H.
  - left. now inversion H.
  - apply for_each_ok_inv in H. destruct H as (g1 & H1 & H2).
    apply IH in H2. destruct H2 as [->|H2]; [|now right].
    apply process_ingredient_ok_inv in H1.
    destruct H1 as [->|(initial & g0 & _ & Hf)]; [now left|].
    right. now apply fetch_all_snapshot in Hf.
Qed.

(** When the script ends normally, the final table is the snapshot taken
    after the last ingredient that got past the name lookup; when no
    ingredient did, no snapshot was taken and the final table is empty. *)
Theorem final_table_is_last_snapshot
  (o : service) (g : globals) (df : dataframe) :
  script o = (g, Ok df) ->
  temp_df g = Some df
  \/ (temp_df g = None /\ df = {| columns := []; rows := [] |}).
Proof.
  unfold script.
  destruct (main_loop o ingredients initial_globals) as [g' [[]|e]] eqn:E;
    [|discriminate].
  intros [= <- <-]. apply main_loop_snapshot in E.
  destruct E as [->|E]; [right; split; reflexivity | now left].
Qed.

Lemma final_table_witness :
  temp_df (fst (script byetta_service))
  = Some (DataFrame (results (fst (script byetta_service))))
  \/ (temp_df (fst (script byetta_service)) = None
      /\ DataFrame (results (fst (script byetta_service)))
         = {| columns := []; rows := [] |}).
Proof.
  apply (final_table_is_last_snapshot byetta_service).
  reflexivity.
Defined.

(** ** Where the fields of a record come from *)

Lemma rows_of_rxcui_fields (o : service) (ing : string) (item : json * json)
  (r : row) :
  In r (rows_of_rxcui o ing item) ->
  ingredient r = ing /\ rxcui r = fst item /\ rxcui_description r = snd item.
Proof.
  unfold rows_of_rxcui.
  destruct (fetch_ndc_list o (fst item)) as [codes|e]; [|contradiction].
  destruct (py_truthy codes).
  - intros Hin. apply in_map_iff in Hin. destruct Hin as (c & <- & _). auto.
  - intros [<-|[]]. auto.
Qed.

(** Every record the loop appends carries an ingredient of the list and
    an identifier that is true (so neither null nor empty), and its
    identifier and concept description are the [rxcui] and [name] of one
    entry with an accepted term type among the related concepts of that
    ingredient. *)
Theorem records_come_from_accepted_entries
  (o : service) (ings : list string) (g : globals) (r : row) :
  In r (results (fst (main_loop o ings g))) ->
  In r (results g)
  \/ (In (ingredient r) ings
      /\ py_truthy (rxcui r) = true
      /\ exists initial cp,
           initial_rxcui_list o (ingredient r) = Ok initial
           /\ In cp (concept_entries o initial)
           /\ accepted cp = true
           /\ field "rxcui" cp = rxcui r
           /\ field "name" cp = rxcui_description r).
Proof.
  destruct (main_loop_tracks o ings g) as (seen & rest & E & P & _).
  rewrite P, fold_left_snoc. intros Hin. apply in_app_or in Hin.
  destruct Hin as [Hin|Hin]; [now left|]. right.
  assert (In r (ordered_rows o ings)) as Hr.
  { rewrite E. apply in_or_app. now left. }
  unfold ordered_rows in Hr. apply in_flat_map in Hr.
  destruct Hr as (ing & Hing & Hr). unfold rows_of_ingredient in Hr.
  destruct (initial_rxcui_list o ing) as [initial|e] eqn:Hi; [|contradiction].
  destruct (py_truthy initial); [|contradiction].
  apply in_flat_map in Hr. destruct Hr as ([id desc] & Hitem & Hr).
  apply rows_of_rxcui_fields in Hr. simpl in Hr.
  destruct Hr as (-> & -> & ->).
  destruct (expansion_invariant (concept_entries o initial))
    as (Hfirst & _ & _ & Hkeys).
  destruct (Hfirst id desc Hitem) as (cp & F & Hid & Hname).
  destruct (first_seen_some _ _ _ F) as (Hcp & Hacc & _).
  split; [exact Hing|]. split; [now apply (Hkeys id desc)|].
  exists initial, cp. auto.
Qed.

Lemma records_witness :
  In {| ingredient := "Exenatide"; rxcui := JStr "311036";
        ndc := JStr "00002-1433-01";
        rxcui_description := JStr "exenatide 250 MCG/ML Injectable Solution";
        ndc_description :=
          JStr "exenatide 250 MCG/ML Injectable Solution [Byetta]" |}
     (results initial_globals)
  \/ (In "Exenatide" ingredients
      /\ py_truthy (JStr "311036") = true
      /\ exists initial cp,
           initial_rxcui_list byetta_service "Exenatide" = Ok initial
           /\ In cp (concept_entries byetta_service initial)
           /\ accepted cp = true
           /\ field "rxcui" cp = JStr "311036"
           /\ field "name" cp
              = JStr "exenatide 250 MCG/ML Injectable Solution").
Proof.
  apply (records_come_from_accepted_entries byetta_service ingredients
           initial_globals
           {| ingredient := "Exenatide"; rxcui := JStr "311036";
              ndc := JStr "00002-1433-01";
              rxcui_description :=
                JStr "exenatide 250 MCG/ML Injectable Solution";
              ndc_description :=
                JStr "exenatide 250 MCG/ML Injectable Solution [Byetta]" |}).
  vm_compute. left. reflexivity.
Defined.

(** ** The order of the ingredients *)

(** Two orders of the same ingredients, when both runs end normally, give
    the same records up to their order. *)
Theorem ingredient_order_permutes_records
  (o : service) (ings ings' : list string) (g : globals) :
  Permutation ings ings' ->
  snd (main_loop o ings g) = Ok tt ->
  snd (main_loop o ings' g) = Ok tt ->
  Permutation (results (fst (main_loop o ings g)))
    (results (fst (main_loop o ings' g))).
Proof.
  intros Hp H1 H2.
  destruct (main_loop_tracks o ings g) as (seen & rest & E & P & R).
  destruct (main_loop_tracks o ings' g) as (seen' & rest' & E' & P' & R').
  rewrite P, P', !fold_left_snoc. apply Permutation_app_head.
  rewrite (R H1), app_nil_r in E. rewrite (R' H2), app_nil_r in E'.
  rewrite <- E, <- E'. unfold ordered_rows.
  now apply Permutation_flat_map.
Qed.

Lemma ingredient_order_witness :
  Permutation
    (results (fst (main_loop shared_concept_service
                     ["Exenatide"; "Liraglutide"] initial_globals)))
    (results (fst (main_loop shared_concept_service
                     ["Liraglutide"; "Exenatide"] initial_globals))).
Proof.
  apply (ingredient_order_permutes_records shared_concept_service
           ["Exenatide"; "Liraglutide"] ["Liraglutide"; "Exenatide"]
           initial_globals).
  - apply perm_swap.
  - reflexivity.
  - reflexivity.
Defined.

(** Whether a run ends normally does depend on the order: an ingredient
    that retains no concept stops the script only while no code list has
    been fetched. *)
Lemma order_decides_name_error :
  snd (main_loop unretained_service ["Exenatide"; "Liraglutide"]
         initial_globals) = Ok tt
  /\ snd (main_loop unretained_service ["Liraglutide"; "Exenatide"]
            initial_globals) = Raise NameError.
Proof.
  split; vm_compute; reflexivity.
Qed.

(** ** Identifiers that repeat in the initial list *)

Lemma covered_refl (d : pydict) : covered d d.
Proof.
  intros k H. exact H.
Qed.

Lemma covered_trans (d1 d2 d3 : pydict) :
  covered d1 d2 -> covered d2 d3 -> covered d1 d3.
Proof.
  intros H12 H23 k H. auto.
Qed.

Lemma covered_insert_entry (d : pydict) (cp : json) :
  covered d (insert_entry d cp).
Proof.
  intros k H. destruct (insert_entry_cases d cp) as [(E & _)|(E & _)];
    rewrite E; [|exact H].
  rewrite has_key_app, H. reflexivity.
Qed.

Lemma grows_dict_keeps (m : M unit) :
  (forall d0,
     keeps (fun g => covered d0 (related_rxcui_dict g)) (fun _ => True) m) ->
  grows_dict m.
Proof.
  intros H g. apply (H (related_rxcui_dict g) g). apply covered_refl.
Qed.

Lemma grows_dict_expand_entry (cp : json) : grows_dict (expand_entry cp).
Proof.
  intros g. rewrite expand_entry_eq.
  destruct cp; simpl; try apply covered_refl.
  destruct (unhashable_entry (JObj kv)); simpl;
    [apply covered_refl | apply covered_insert_entry].
Qed.

Lemma grows_dict_expand_rxcui (o : service) (id : json) :
  grows_dict (expand_rxcui o id).
Proof.
  apply grows_dict_keeps. intros d0. unfold expand_rxcui.
  apply keeps_py_get; [exact I|]. intros g.
  apply keeps_py_get; [exact I|]. intros groups.
  apply keeps_for_in; [exact I|]. intros group. unfold expand_group.
  apply keeps_py_get; [exact I|]. intros cps.
  apply keeps_for_in; [exact I|]. intros cp g0 H0. split; [|auto].
  apply covered_trans with (related_rxcui_dict g0); [exact H0|].
  apply grows_dict_expand_entry.
Qed.

Lemma grows_dict_for_each {A} (body : A -> M unit) (l : list A) :
  (forall x, grows_dict (body x)) -> grows_dict (for_each body l).
Proof.
  intros H. apply grows_dict_keeps. intros d0.
  apply keeps_for_each. intros x g Hg. split; [|auto].
  apply covered_trans with (related_rxcui_dict g); [exact Hg | apply H].
Qed.

Lemma absorbs_lift_bind {A} (r : res A) (k : A -> M unit) :
  (forall a, absorbs (k a)) -> absorbs (bind (lift r) k).
Proof.
  intros H ga gb gc. unfold bind, lift.
  destruct r as [a|e]; [apply H | discriminate].
Qed.

Lemma absorbs_for_each {A} (body : A -> M unit) (l : list A) :
  (forall x, grows_dict (body x)) -> (forall x, absorbs (body x)) ->
  absorbs (for_each body l).
Proof.
  intros Hg Ha. induction l as [|x l IH]; intros ga gb gc H Hc.
  - reflexivity.
  - apply for_each_ok_inv in H. destruct H as (g1 & H1 & H2).
    simpl. unfold bind.
    rewrite (Ha x ga g1 gc H1).
    + apply (IH g1 gb gc H2 Hc).
    + apply covered_trans with (related_rxcui_dict gb); [|exact Hc].
      pose proof (grows_dict_for_each body l Hg g1) as Hm.
      now rewrite H2 in Hm.
Qed.

Lemma absorbs_for_in (v : json) (body : json -> M unit) :
  (forall x, grows_dict (body x)) -> (forall x, absorbs (body x)) ->
  absorbs (for_in v body).
Proof.
  intros Hg Ha. unfold for_in. apply absorbs_lift_bind.
  intros l. now apply absorbs_for_each.
Qed.

Lemma absorbs_expand_entry (cp : json) : absorbs (expand_entry cp).
Proof.
  intros ga gb gc. rewrite !expand_entry_eq.
  destruct cp as [| | | | |kv]; try discriminate.
  unfold unhashable_entry.
  destruct (accepted (JObj kv) && py_truthy (field "rxcui" (JObj kv)))
    eqn:Hc; simpl.
  - destruct (hashable (field "rxcui" (JObj kv))) eqn:Hh; simpl;
      [|discriminate].
    intros [= <-] Hcov. simpl in Hcov.
    assert (has_key (related_rxcui_dict gc) (field "rxcui" (JObj kv)) = true)
      as Hk.
    { apply Hcov. unfold insert_entry. rewrite Hc, Hh. simpl.
      destruct (has_key (related_rxcui_dict ga) (field "rxcui" (JObj kv)))
        eqn:Hka; simpl; [exact Hka|].
      rewrite has_key_app. unfold has_key at 2. simpl.
      rewrite py_key_eq_refl by exact Hh. apply orb_true_r. }
    unfold insert_entry. rewrite Hc, Hh, Hk. simpl.
    now rewrite with_dict_same.
  - intros _ _. unfold insert_entry. rewrite Hc. simpl.
    now rewrite with_dict_same.
Qed.

Lemma absorbs_expand_rxcui (o : service) (id : json) :
  absorbs (expand_rxcui o id).
Proof.
  unfold expand_rxcui.
  apply absorbs_lift_bind. intros g.
  apply absorbs_lift_bind. intros groups.
  apply absorbs_for_in.
  - intros group. apply grows_dict_keeps. intros d0. unfold expand_group.
    apply keeps_py_get; [exact I|]. intros cps.
    apply keeps_for_in; [exact I|]. intros cp g0 H0. split; [|auto].
    apply covered_trans with (related_rxcui_dict g0); [exact H0|].
    apply grows_dict_expand_entry.
  - intros group. unfold expand_group.
    apply absorbs_lift_bind. intros cps.
    apply absorbs_for_in.
    + apply grows_dict_expand_entry.
    + apply absorbs_expand_entry.
Qed.

Lemma for_each_step_covered {A} (body : A -> M unit) (l : list A) (x : A)
  (g g' : globals) :
  (forall y, grows_dict (body y)) ->
  for_each body l g = (g', Ok tt) ->
  In x l ->
  exists ga gb,
    body x ga = (gb, Ok tt)
    /\ covered (related_rxcui_dict gb) (related_rxcui_dict g').
Proof.
  intros Hg. revert g. induction l as [|y l IH]; intros g H Hin;
    [contradiction|].
  apply for_each_ok_inv in H. destruct H as (g1 & H1 & H2).
  destruct Hin as [->|Hin].
  - exists g, g1. split; [exact H1|].
    pose proof (grows_dict_for_each body l Hg g1) as Hm.
    now rewrite H2 in Hm.
  - now apply (IH g1).
Qed.

(** Identifiers that the initial list names again change nothing: when
    the expansion of a list ends normally, the expansion of that list
    followed by identifiers it already holds ends normally with the same
    globals. *)
Theorem repeated_initial_identifiers_add_nothing
  (o : service) (l l' : list json) (g : globals) :
  snd (expand o (JArr l) g) = Ok tt ->
  (forall id, In id l' -> In id l) ->
  expand o (JArr (l ++ l')) g = expand o (JArr l) g.
Proof.
  rewrite !expand_unfold. unfold for_in, bind, lift. simpl.
  intros Hok Hsub. rewrite for_each_app. unfold bind.
  destruct (for_each (expand_rxcui o) l (with_dict g [])) as [g1 [[]|e]]
    eqn:E; [|discriminate].
  clear Hok. induction l' as [|id l' IH]; [reflexivity|].
  simpl. unfold bind.
  destruct (for_each_step_covered (expand_rxcui o) l id _ _
              (grows_dict_expand_rxcui o) E (Hsub id (or_introl eq_refl)))
    as (ga & gb & Hrun & Hcov).
  rewrite (absorbs_expand_rxcui o id ga gb g1 Hrun Hcov).
  apply IH. intros x Hx. apply Hsub. now right.
Qed.

Lemma repeated_initial_identifiers_witness :
  expand mixed_service (JArr ([JStr "84108"] ++ [JStr "84108"]))
    initial_globals
  = expand mixed_service (JArr [JStr "84108"]) initial_globals.
Proof.
  apply (repeated_initial_identifiers_add_nothing mixed_service
           [JStr "84108"] [JStr "84108"] initial_globals).
  - reflexivity.
  - intros id H. exact H.
Defined.
